(** * DD-Scripts: team-handle resolution, monitor search and synthetics export

    A shallow embedding of [GE_Alerts_extract.py] and
    [datadog_synthetics_export.py], and the properties their description
    states about them.

    Conventions of the embedding:
    - a Python [str] is a Rocq [string] whose characters are the code points
      below 256; [lower] and [strip] follow Python on that range;
    - a decoded JSON document is a [json] value; numbers are the integers
      (a number with a fraction or an exponent is outside the model); an
      object keeps its keys in document order, each key once;
    - a Python computation that may raise is a [result]: [Return v] or
      [Raise e];
    - a remote endpoint is a function from the request to its outcome, and a
      function that calls it also returns the list of the requests it issued,
      oldest first. *)

From Stdlib Require Import String Ascii List ZArith Lia Bool.
From Stdlib Require DecimalString.
Import ListNotations.

Set Warnings "-register-all".

Local Open Scope Z_scope.
Local Open Scope list_scope.
Local Open Scope string_scope.

(** ** Python values and built-ins *)

Module Py.

Inductive json : Type :=
| JNull
| JBool (b : bool)
| JNum (n : Z)
| JStr (s : string)
| JList (l : list json)
| JDict (kvs : list (string * json)).

(** [requests.HTTPError], as raised by [raise_for_status]: the status of the
    response and the text [str(e)] gives. *)
Record http_error : Type := mkHTTPError {
  status_code : Z;
  detail : string
}.

Inductive exn : Type :=
| HTTPError (e : http_error)
| RequestException (msg : string)   (* ConnectionError, Timeout, ... *)
| JSONDecodeError
| AttributeError
| TypeError
| ValueError
| KeyError
| IndexError
| RuntimeError (msg : string).

Inductive result (A : Type) : Type :=
| Return (a : A)
| Raise (e : exn).

Arguments Return {A} a.
Arguments Raise {A} e.

Definition bind {A B : Type} (m : result A) (f : A -> result B) : result B :=
  match m with
  | Return a => f a
  | Raise e => Raise e
  end.

Notation "x <- m ;; k" := (bind m (fun x => k))
  (at level 61, m at next level, right associativity).

Fixpoint mapM {A B : Type} (f : A -> result B) (l : list A) : result (list B) :=
  match l with
  | [] => Return []
  | a :: l' => b <- f a ;; bs <- mapM f l' ;; Return (b :: bs)
  end.

(** *** Truth value, [or] *)

Definition truthy (v : json) : bool :=
  match v with
  | JNull => false
  | JBool b => b
  | JNum n => negb (n =? 0)%Z
  | JStr s => negb (String.eqb s "")
  | JList l => match l with [] => false | _ => true end
  | JDict kvs => match kvs with [] => false | _ => true end
  end.

(** [a or b] *)
Definition or_else (a b : json) : json := if truthy a then a else b.

(** *** Dictionaries *)

Fixpoint lookup (k : string) (kvs : list (string * json)) : option json :=
  match kvs with
  | [] => None
  | (k', v) :: kvs' => if String.eqb k k' then Some v else lookup k kvs'
  end.

(** [d.get(k, default)]; only a dict has a [get]. *)
Definition get (d : json) (k : string) (default : json) : result json :=
  match d with
  | JDict kvs =>
      match lookup k kvs with
      | Some v => Return v
      | None => Return default
      end
  | _ => Raise AttributeError
  end.

Definition is_dict (v : json) : bool :=
  match v with JDict _ => true | _ => false end.

(** [k in d] and [d[k]] for a value already known to be a dict. *)
Definition has_key (k : string) (d : json) : bool :=
  match d with
  | JDict kvs => match lookup k kvs with Some _ => true | None => false end
  | _ => false
  end.

Definition item (d : json) (k : string) : json :=
  match d with
  | JDict kvs => match lookup k kvs with Some v => v | None => JNull end
  | _ => JNull
  end.

(** *** Strings *)

Definition chars (s : string) : list ascii := list_ascii_of_string s.
Definition of_chars (l : list ascii) : string := string_of_list_ascii l.

Definition code (c : ascii) : N := N_of_ascii c.

Definition lower_char (c : ascii) : ascii :=
  let n := code c in
  if ((65 <=? n) && (n <=? 90) ||
      (192 <=? n) && (n <=? 222) && negb (n =? 215))%N
  then ascii_of_N (n + 32) else c.

(** [s.lower()] *)
Definition lower (s : string) : string := of_chars (map lower_char (chars s)).

Definition is_space (c : ascii) : bool :=
  let n := code c in
  ((9 <=? n) && (n <=? 13) || (28 <=? n) && (n <=? 32) ||
   (n =? 133) || (n =? 160))%N.

Fixpoint lstrip_chars (l : list ascii) : list ascii :=
  match l with
  | c :: l' => if is_space c then lstrip_chars l' else l
  | [] => []
  end.

(** [s.strip()] *)
Definition strip (s : string) : string :=
  of_chars (rev (lstrip_chars (rev (lstrip_chars (chars s))))).

(** [s.replace(old, new)] for one-character [old] and [new]. *)
Definition replace (old new : ascii) (s : string) : string :=
  of_chars (map (fun c => if Ascii.eqb c old then new else c) (chars s)).

(** [sep.join(parts)] on strings. *)
Fixpoint join (sep : string) (parts : list string) : string :=
  match parts with
  | [] => ""
  | [p] => p
  | p :: ps => p ++ sep ++ join sep ps
  end.

Definition dquote : string := String (ascii_of_N 34) "".

(** *** [str] and [repr] *)

Definition str_int (n : Z) : string := DecimalString.NilZero.string_of_int (Z.to_int n).

Definition hex_digit (n : N) : ascii :=
  if (n <? 10)%N then ascii_of_N (48 + n) else ascii_of_N (87 + n).

Definition printable (c : ascii) : bool :=
  let n := code c in
  negb ((n <? 32) || (127 <=? n) && (n <=? 160) || (n =? 173))%N.

Definition escape (quote c : ascii) : string :=
  let n := code c in
  if Ascii.eqb c quote || (n =? 92)%N then String (ascii_of_N 92) (String c "")
  else if (n =? 9)%N then "\t"
  else if (n =? 10)%N then "\n"
  else if (n =? 13)%N then "\r"
  else if printable c then String c ""
  else "\x" ++ String (hex_digit (n / 16)) (String (hex_digit (n mod 16)) "").

Definition repr_str (s : string) : string :=
  let has c := existsb (Ascii.eqb c) (chars s) in
  let quote := if has "'"%char && negb (has (ascii_of_N 34))
               then ascii_of_N 34 else "'"%char in
  String quote (String.concat "" (map (escape quote) (chars s))) ++ String quote "".

Fixpoint repr (v : json) : string :=
  match v with
  | JNull => "None"
  | JBool true => "True"
  | JBool false => "False"
  | JNum n => str_int n
  | JStr s => repr_str s
  | JList l => "[" ++ join ", " (map repr l) ++ "]"
  | JDict kvs =>
      "{" ++ join ", " (map (fun kv => match kv with
                                       | (k, x) => repr_str k ++ ": " ++ repr x
                                       end) kvs) ++ "}"
  end.

(** [str(v)], which is also how an f-string renders [{v}]. *)
Definition str (v : json) : string :=
  match v with
  | JStr s => s
  | _ => repr v
  end.

(** *** Iteration, length, indexing *)

(** The items a [for] loop (or [extend], or [join]) draws from [v]. *)
Definition iter (v : json) : result (list json) :=
  match v with
  | JList l => Return l
  | JStr s => Return (map (fun c => JStr (String c "")) (chars s))
  | JDict kvs => Return (map (fun kv => JStr (fst kv)) kvs)
  | _ => Raise TypeError
  end.

(** [len(v)] *)
Definition len (v : json) : result Z :=
  match v with
  | JList l => Return (Z.of_nat (List.length l))
  | JStr s => Return (Z.of_nat (String.length s))
  | JDict kvs => Return (Z.of_nat (List.length kvs))
  | _ => Raise TypeError
  end.

(** [v[0]] *)
Definition first (v : json) : result json :=
  match v with
  | JList (x :: _) => Return x
  | JList [] => Raise IndexError
  | JStr (String c _) => Return (JStr (String c ""))
  | JStr EmptyString => Raise IndexError
  | JDict _ => Raise KeyError
  | _ => Raise TypeError
  end.

(** [sep.join(v)]: every item must be a [str]. *)
Definition join_value (sep : string) (v : json) : result string :=
  items <- iter v ;;
  parts <- mapM (fun x => match x with
                          | JStr s => Return s
                          | _ => Raise TypeError
                          end) items ;;
  Return (join sep parts).

(** [v.lower()]; only a [str] has it. *)
Definition lower_value (v : json) : result string :=
  match v with
  | JStr s => Return (lower s)
  | _ => Raise AttributeError
  end.

(** *** [requests] *)

(** What [requests.get] hands back: the status of the response, the text of
    the [HTTPError] that [raise_for_status] builds for it, and what
    [.json()] gives. *)
Record response : Type := mkResponse {
  status : Z;
  error_text : string;
  body : result json
}.

(** [r.raise_for_status()] *)
Definition raise_for_status (r : response) : result unit :=
  if (400 <=? status r)%Z && (status r <? 600)%Z
  then Raise (HTTPError (mkHTTPError (status r) (error_text r)))
  else Return tt.

End Py.

(** ** GE_Alerts_extract.py *)

Module GE_Alerts_extract.
Import Py.

(** [{"id": ..., "name": ...}] *)
Record monitor : Type := mkMonitor {
  id : json;
  name : json
}.

Section Endpoints.

(** [requests.get] on the Teams API, by the keyword of the filter. *)
Variable teams_api : string -> result response.

(** [datadog_get] on [BASE_V1/monitor/search], by the query string; the
    script uses it without defining it, so it is taken as given. *)
Variable datadog_get : string -> result json.

Definition _list_teams_by_keyword (keyword : string) : result json :=
  r <- teams_api keyword ;;
  _ <- raise_for_status r ;;
  doc <- body r ;;
  data <- get doc "data" (JList []) ;;
  Return (or_else data (JList [])).

(** [keyword.strip().lower().replace(" ", "-")] *)
Definition synthesized (keyword : string) : string :=
  replace " " "-" (lower (strip keyword)).

(** The [for t in teams] loop: [Some handle] when it returns, [None] when
    it runs to its end. *)
Fixpoint exact_match (keyword : string) (teams : list json)
  : result (option json) :=
  match teams with
  | [] => Return None
  | t :: teams' =>
      a <- get t "attributes" (JDict []) ;;
      let attrs := or_else a (JDict []) in
      name <- get attrs "name" (JStr "") ;;
      handle <- get attrs "handle" (JStr "") ;;
      let k := lower keyword in
      n <- lower_value name ;;
      h <- lower_value handle ;;
      if String.eqb k n || String.eqb k h then Return (Some handle)
      else exact_match keyword teams'
  end.

Definition _extract_team_handle (keyword : string) : result json :=
  teams <- _list_teams_by_keyword keyword ;;
  if negb (truthy teams) then Return (JStr (synthesized keyword))
  else
    items <- iter teams ;;
    found <- exact_match keyword items ;;
    match found with
    | Some handle => Return handle
    | None =>
        t0 <- first teams ;;
        a <- get t0 "attributes" (JDict []) ;;
        get a "handle" (JStr (synthesized keyword))
    end.

Definition variants (handle : json) : list string :=
  [ "team:" ++ str handle;
    "team:" ++ dquote ++ str handle ++ dquote;
    "teams:" ++ str handle;
    "teams:" ++ dquote ++ str handle ++ dquote ].

(** The two response shapes probed for the candidate list. *)
Definition candidates_of (data : json) : json :=
  if is_dict data then
    if has_key "data" data && is_dict (item data "data")
       && has_key "monitors" (item data "data")
    then item (item data "data") "monitors"
    else if has_key "monitors" data then item data "monitors"
    else JList []
  else JList [].

(** The comprehension
    [[{"id": m.get("id"), "name": m.get("name")} for m in ... if m.get("id") is not None]]. *)
Fixpoint select_monitors (ms : list json) : result (list monitor) :=
  match ms with
  | [] => Return []
  | m :: ms' =>
      i <- get m "id" JNull ;;
      match i with
      | JNull => select_monitors ms'
      | _ =>
          i' <- get m "id" JNull ;;
          n <- get m "name" JNull ;;
          rest <- select_monitors ms' ;;
          Return (mkMonitor i' n :: rest)
      end
  end.

(** The body of the [try] for one query variant, up to [monitors]. *)
Definition attempt (q : string) : result (list monitor) :=
  data <- datadog_get q ;;
  ms <- iter (or_else (candidates_of data) (JList [])) ;;
  select_monitors ms.

Definition failure_message (team_input : string) (handle : json)
    (last_err : http_error) : string :=
  "Failed to search monitors for team '" ++ team_input ++
  "' (resolved handle '" ++ str handle ++ "'). " ++
  "Last error: " ++ detail last_err.

(** The [for q in variants] loop and the code after it. The first component
    is the list of queries sent to the search endpoint; [Return None] is the
    function running off its end. *)
Fixpoint try_variants (team_input : string) (handle : json)
    (qs : list string) (last_err : option http_error)
  : list string * result (option (list monitor)) :=
  match qs with
  | [] =>
      ([], match last_err with
           | Some e => Raise (RuntimeError (failure_message team_input handle e))
           | None => Return None
           end)
  | q :: qs' =>
      let (sent, r) :=
        match attempt q with
        | Return [] => try_variants team_input handle qs' last_err
        | Return monitors => ([], Return (Some monitors))
        | Raise (HTTPError e) => try_variants team_input handle qs' (Some e)
        | Raise e => ([], Raise e)
        end in
      (q :: sent, r)
  end.

Definition find_monitors_for_team (team_input : string)
  : list string * result (option (list monitor)) :=
  match _extract_team_handle team_input with
  | Raise e => ([], Raise e)
  | Return handle => try_variants team_input handle (variants handle) None
  end.

End Endpoints.

End GE_Alerts_extract.

(** ** datadog_synthetics_export.py *)

Module datadog_synthetics_export.
Import Py.

(** Datadog day numbers and their labels. *)
Definition DAY_MAP : list (Z * string) :=
  [ (1, "Mon"); (2, "Tue"); (3, "Wed"); (4, "Thu"); (5, "Fri");
    (6, "Sat"); (7, "Sun") ]%Z.

Definition page_size : Z := 100.

(** [{"schedule_timezone": ..., "schedule_windows": ...}] *)
Record schedule : Type := mkSchedule {
  schedule_timezone : json;
  schedule_windows : string
}.

(** One row of the exported table. *)
Record row : Type := mkRow {
  row_public_id : json;
  row_name : json;
  row_type : string;
  row_subtype : json;
  row_status : string;
  row_frequency : string;
  row_locations : string;
  row_monitor_id : string;
  row_device_ids : string;
  row_tags : string;
  row_schedule_timezone : json;
  row_schedule_windows : string
}.

Section Environment.

(** [int(s)] for a [str]: [None] stands for [ValueError]. *)
Variable int_of_str : string -> option Z.

(** [requests.get] on the synthetics listing, by [page] and [page_size]. *)
Variable tests_api : Z -> Z -> result response.

(** [int(v)] *)
Definition int (v : json) : result Z :=
  match v with
  | JNum n => Return n
  | JBool b => Return (if b then 1 else 0)%Z
  | JStr s =>
      match int_of_str s with
      | Some n => Return n
      | None => Raise ValueError
      end
  | _ => Raise TypeError
  end.

(** [v == 0] *)
Definition eq_zero (v : json) : bool :=
  match v with
  | JNum n => (n =? 0)%Z
  | JBool b => negb b
  | _ => false
  end.

(** What one turn of the [while True] loop does with the page it fetched:
    [inl] is a [break], [inr] goes on to the next page. *)
Definition fetch_page (page : Z) (all_tests : list json)
  : result (list json + list json) :=
  response <- tests_api page page_size ;;
  _ <- raise_for_status response ;;
  doc <- body response ;;
  let data := or_else doc (JDict []) in
  tests <- get data "tests" (JList []) ;;
  if negb (truthy tests) then Return (inl all_tests)
  else
    items <- iter tests ;;
    let all_tests := (all_tests ++ items)%list in
    n <- len tests ;;
    if (n <? page_size)%Z then Return (inl all_tests)
    else Return (inr all_tests).

(** The [while True] loop, cut after [fuel] turns ([None]). The first
    component lists the requests sent, as [(page, page_size)]. *)
Fixpoint fetch_loop (fuel : nat) (page : Z) (all_tests : list json)
  : option (list (Z * Z) * result (list json)) :=
  match fuel with
  | O => None
  | S fuel' =>
      match fetch_page page all_tests with
      | Raise e => Some ([(page, page_size)], Raise e)
      | Return (inl all_tests) => Some ([(page, page_size)], Return all_tests)
      | Return (inr all_tests) =>
          match fetch_loop fuel' (page + 1)%Z all_tests with
          | Some (sent, r) => Some ((page, page_size) :: sent, r)
          | None => None
          end
      end
  end.

Definition get_synthetic_tests (fuel : nat)
  : option (list (Z * Z) * result (list json)) :=
  fetch_loop fuel 0%Z [].

Definition extract_subtype (test : json) (test_type : string) : result json :=
  if String.eqb test_type "api" then get test "subtype" (JStr "N/A")
  else if String.eqb test_type "browser" || String.eqb test_type "mobile" then
    steps <- get test "steps" (JList []) ;;
    if truthy steps then
      n <- len steps ;;
      if (1 <? n)%Z then Return (JStr "multistep") else Return (JStr "N/A")
    else Return (JStr "N/A")
  else Return (JStr "N/A").

Definition format_seconds_to_human (seconds : json) : result string :=
  if negb (truthy seconds) && negb (eq_zero seconds) then Return "N/A"
  else
    match int seconds with
    | Raise ValueError | Raise TypeError => Return "N/A"
    | Raise e => Raise e
    | Return sec =>
        if (sec =? 0)%Z then Return "0 seconds"
        else if (sec mod 3600 =? 0)%Z then
          let hours := (sec / 3600)%Z in
          Return (str_int hours ++ " hour" ++
                  (if negb (hours =? 1)%Z then "s" else ""))
        else if (sec mod 60 =? 0)%Z then
          let minutes := (sec / 60)%Z in
          Return (str_int minutes ++ " minute" ++
                  (if negb (minutes =? 1)%Z then "s" else ""))
        else Return (str_int sec ++ " seconds")
    end.

Definition extract_frequency (test : json) (test_type : string)
  : result string :=
  options <- get test "options" (JDict []) ;;
  tick_every <- get options "tick_every" JNull ;;
  format_seconds_to_human tick_every.

Fixpoint day_lookup (n : Z) (m : list (Z * string)) : option string :=
  match m with
  | [] => None
  | (k, label) :: m' => if (n =? k)%Z then Some label else day_lookup n m'
  end.

(** [DAY_MAP.get(day_num, str(day_num) if day_num is not None else "N/A")] *)
Definition day_label (day_num : json) : result string :=
  let default := match day_num with JNull => "N/A" | _ => str day_num end in
  match day_num with
  | JNum n =>
      Return (match day_lookup n DAY_MAP with Some l => l | None => default end)
  | JBool b =>
      Return (match day_lookup (if b then 1 else 0)%Z DAY_MAP with
              | Some l => l
              | None => default
              end)
  | JList _ | JDict _ => Raise TypeError     (* unhashable *)
  | _ => Return default
  end.

(** The [for tf in timeframes] loop. *)
Fixpoint windows_of (timeframes : list json) : result (list string) :=
  match timeframes with
  | [] => Return []
  | tf :: rest =>
      day_num <- get tf "day" JNull ;;
      start <- get tf "from" JNull ;;
      end_ <- get tf "to" JNull ;;
      day_str <- day_label day_num ;;
      let window :=
        if truthy start && truthy end_ then
          match day_num with
          | JNull => [str start ++ "-" ++ str end_]
          | _ => [day_str ++ " " ++ str start ++ "-" ++ str end_]
          end
        else [] in
      windows <- windows_of rest ;;
      Return (window ++ windows)%list
  end.

Definition extract_schedule (test : json) : result schedule :=
  options <- get test "options" (JDict []) ;;
  s <- get options "scheduling" (JDict []) ;;
  let scheduling := or_else s (JDict []) in
  tz <- get scheduling "timezone" JNull ;;
  let timezone := or_else tz (JStr "N/A") in
  tfs <- get scheduling "timeframes" JNull ;;
  let timeframes := or_else tfs (JList []) in
  items <- iter timeframes ;;
  windows <- windows_of items ;;
  Return (mkSchedule timezone
            (match windows with [] => "N/A" | _ => join "; " windows end)).

Definition extract_locations (test : json) : result string :=
  locations <- get test "locations" (JList []) ;;
  if truthy locations then join_value ", " locations else Return "N/A".

Definition extract_device_ids (test : json) : result string :=
  options <- get test "options" (JDict []) ;;
  device_ids <- get options "device_ids" (JList []) ;;
  if truthy device_ids then join_value ", " device_ids else Return "N/A".

Definition extract_tags (test : json) : result string :=
  tags <- get test "tags" (JList []) ;;
  if truthy tags then join_value ", " tags else Return "N/A".

Definition extract_monitor_id (test : json) : result string :=
  monitor_id <- get test "monitor_id" JNull ;;
  match monitor_id with
  | JNull => Return "N/A"
  | _ => Return (str monitor_id)
  end.

Definition get_status (test : json) : result string :=
  status <- get test "status" JNull ;;
  if truthy status then lower_value status else Return "N/A".

(** The body of the [for test in tests] loop. *)
Definition process_test (test : json) : result row :=
  t <- get test "type" JNull ;;
  test_type <- lower_value (or_else t (JStr "")) ;;
  schedule <- extract_schedule test ;;
  public_id <- get test "public_id" (JStr "N/A") ;;
  name <- get test "name" (JStr "N/A") ;;
  subtype <- extract_subtype test test_type ;;
  status <- get_status test ;;
  frequency <- extract_frequency test test_type ;;
  locations <- extract_locations test ;;
  monitor_id <- extract_monitor_id test ;;
  device_ids <- extract_device_ids test ;;
  tags <- extract_tags test ;;
  Return (mkRow public_id name test_type subtype status frequency locations
            monitor_id device_ids tags
            (schedule_timezone schedule) (schedule_windows schedule)).

(** The rows handed to [pd.DataFrame]. *)
Definition process_synthetic_tests (tests : list json) : result (list row) :=
  mapM process_test tests.

(** The choices of [--output]. *)
Inductive output_format : Type := csv | excel | both.

(** [df.to_csv(filename, index=False)] and
    [df.to_excel(filename, index=False, engine="openpyxl")]: pandas writes
    the table to the file, or raises. *)
Variable to_csv : list row -> string -> result unit.
Variable to_excel : list row -> string -> result unit.

Definition export_to_csv (df : list row) (filename : string) : result unit :=
  to_csv df filename.

Definition export_to_excel (df : list row) (filename : string)
  : result unit :=
  to_excel df filename.

(** A call of [export_to_csv] or [export_to_excel], with the file name and
    the table it was given. *)
Inductive export : Type :=
| csv_export (filename : string) (df : list row)
| excel_export (filename : string) (df : list row).

(** [main] after [parse_args], for the parsed [--output] and [--filename]
    ([None] when the option is not given): the requests sent, the export
    calls made, in order, and how the run ends. A call that raises is in
    the list: its file may be partly written. What [main] prints is not
    modelled. *)
Definition main (fuel : nat) (output : output_format)
    (filename : option string)
  : option (list (Z * Z) * list export * result unit) :=
  match get_synthetic_tests fuel with
  | None => None
  | Some (sent, Raise e) => Some (sent, [], Raise e)
  | Some (sent, Return tests) =>
      match process_synthetic_tests tests with
      | Raise e => Some (sent, [], Raise e)
      | Return df =>
          let base_filename :=
            match filename with
            | Some name => if String.eqb name "" then "synthetic_tests" else name
            | None => "synthetic_tests"
            end in
          let (csv_calls, csv_done) :=
            match output with
            | csv | both =>
                ([csv_export (base_filename ++ ".csv") df],
                 export_to_csv df (base_filename ++ ".csv"))
            | excel => ([], Return tt)
            end in
          match csv_done with
          | Raise e => Some (sent, csv_calls, Raise e)
          | Return _ =>
              let (excel_calls, excel_done) :=
                match output with
                | excel | both =>
                    ([excel_export (base_filename ++ ".xlsx") df],
                     export_to_excel df (base_filename ++ ".xlsx"))
                | csv => ([], Return tt)
                end in
              Some (sent, (csv_calls ++ excel_calls)%list, excel_done)
          end
      end
  end.

End Environment.

End datadog_synthetics_export.

(** ** Vocabulary of the statements *)

Module Spec.
Import Py GE_Alerts_extract.

Local Open Scope list_scope.

(** A candidate carries a non-null identifier. *)
Definition has_id (m : json) : bool :=
  match item m "id" with JNull => false | _ => true end.

(** The [{id, name}] projection of a candidate. *)
Definition summary (m : json) : monitor :=
  mkMonitor (item m "id") (item m "name").

(** The id-filtered [{id, name}] list of a candidate list. *)
Definition id_filtered (candidates : list json) : list monitor :=
  map summary (filter has_id candidates).

(** The search request for [q] succeeds and its id-filtered list is [l]. *)
Definition yields (datadog_get : string -> result json) (q : string)
    (l : list monitor) : Prop :=
  exists data candidates,
    datadog_get q = Return data /\
    iter (or_else (candidates_of data) (JList [])) = Return candidates /\
    forallb is_dict candidates = true /\
    l = id_filtered candidates.

(** The search request for [q] fails with the HTTP error [e]. *)
Definition rejected (datadog_get : string -> result json) (q : string)
    (e : http_error) : Prop :=
  datadog_get q = Raise (HTTPError e).

(** The loop goes past [q]: an HTTP error, or an empty filtered list. *)
Definition passed_over (datadog_get : string -> result json) (q : string)
  : Prop :=
  (exists e, rejected datadog_get q e) \/ yields datadog_get q [].

(** What the code after the variant loop does with [last_err]. *)
Definition after_loop (team_input : string) (handle : json)
    (last_err : option http_error) : result (option (list monitor)) :=
  match last_err with
  | Some e => Raise (RuntimeError (failure_message team_input handle e))
  | None => Return None
  end.

(** A client-error (4xx) HTTP failure. *)
Definition client_error (e : exn) : Prop :=
  exists h, e = HTTPError h /\ (400 <= status_code h < 500)%Z.

(** [t] occurs inside [s]. *)
Definition contains (s t : string) : Prop :=
  exists a b, s = (a ++ t ++ b)%string.

(** The name and handle of a team record that has both, as strings. *)
Definition team_view (t : json) : option (string * string) :=
  match t with
  | JDict kvs =>
      match lookup "attributes" kvs with
      | Some (JDict attrs) =>
          match lookup "name" attrs, lookup "handle" attrs with
          | Some (JStr name), Some (JStr handle) => Some (name, handle)
          | _, _ => None
          end
      | _ => None
      end
  | _ => None
  end.

(** The keyword equals the name or the handle, letter case aside. *)
Definition matches (keyword : string) (nh : string * string) : bool :=
  String.eqb (lower keyword) (lower (fst nh)) ||
  String.eqb (lower keyword) (lower (snd nh)).

(** A 200 response with the given document. *)
Definition ok (doc : json) : result response :=
  Return (mkResponse 200 "" (Return doc)).

(** A team record with the given name and handle. *)
Definition team (name handle : string) : json :=
  JDict [("attributes", JDict [("name", JStr name); ("handle", JStr handle)])].

(** A Teams API that answers every keyword with the same records. *)
Definition teams_fixed (records : list json) : string -> result response :=
  fun _ => ok (JDict [("data", JList records)]).

(** A search endpoint given by its answers to listed queries; any other
    query gets an empty monitor list. *)
Fixpoint search_table (answers : list (string * result json)) (q : string)
  : result json :=
  match answers with
  | [] => Return (JDict [("monitors", JList [])])
  | (q', r) :: answers' =>
      if String.eqb q q' then r else search_table answers' q
  end.

Definition monitors_doc (ms : list json) : json :=
  JDict [("monitors", JList ms)].

Definition monitor_doc (i : Z) (n : string) : json :=
  JDict [("id", JNum i); ("name", JStr n)].

Definition http (code : Z) (text : string) : exn :=
  HTTPError (mkHTTPError code text).

(** Sample endpoints: one team, [Web] with handle [web]. *)
Definition sample_teams : string -> result response :=
  teams_fixed [team "Web" "web"].

Definition quoted (s : string) : string := (dquote ++ s ++ dquote)%string.

(** The unquoted singular query is refused with a 400, the quoted one finds
    monitor 7. *)
Definition sample_search : string -> result json :=
  search_table
    [ ("team:web", Raise (http 400 "400 Client Error: Bad Request"));
      (("team:" ++ quoted "web")%string, Return (monitors_doc [monitor_doc 7 "cpu"])) ].

(** The same, with a server error in place of the 400. *)
Definition search_500 : string -> result json :=
  search_table
    [ ("team:web", Raise (http 500 "500 Server Error: Internal Server Error"));
      (("team:" ++ quoted "web")%string, Return (monitors_doc [monitor_doc 7 "cpu"])) ].

(** The connection drops on the second query. *)
Definition search_dropped : string -> result json :=
  search_table
    [ (("team:" ++ quoted "web")%string, Raise (RequestException "Connection aborted")) ].

(** The first and third queries are refused, the other two find nothing. *)
Definition search_refused : string -> result json :=
  search_table
    [ ("team:web", Raise (http 400 "400 Client Error: one"));
      ("teams:web", Raise (http 400 "400 Client Error: three")) ].

End Spec.

Module SyntheticsSpec.
Import Py datadog_synthetics_export Spec.

Local Open Scope list_scope.

(** A reading of [int] on strings that accepts the plain decimal numerals,
    used where a statement is run on sample input. *)
Definition decimal (s : string) : option Z :=
  option_map Z.of_int (DecimalString.NilZero.int_of_string s).

(** [n] followed by the unit, in the plural unless [n] is 1. *)
Definition counted (n : Z) (unit : string) : string :=
  (str_int n ++ " " ++ unit ++ (if (n =? 1)%Z then "" else "s"))%string.

(** A listing response carrying [items]. *)
Definition tests_doc (items : list json) : json :=
  JDict [("tests", JList items)].

(** A listing endpoint that serves the given pages, then empty ones. *)
Definition serve (pages : list (list json)) : Z -> Z -> result response :=
  fun page _ =>
    if (page <? 0)%Z then ok (tests_doc [])
    else ok (tests_doc (nth (Z.to_nat page) pages [])).

(** The requests for pages [0 .. n-1]. *)
Definition requests (n : nat) : list (Z * Z) :=
  map (fun i => (Z.of_nat i, page_size)) (seq 0 n).

(** *** Well-formed synthetic test records *)

Definition is_null (v : json) : bool :=
  match v with JNull => true | _ => false end.

Definition is_str (v : json) : bool :=
  match v with JStr _ => true | _ => false end.

Definition is_num (v : json) : bool :=
  match v with JNum _ => true | _ => false end.

Definition is_list (v : json) : bool :=
  match v with JList _ => true | _ => false end.

Definition is_str_list (v : json) : bool :=
  match v with JList l => forallb is_str l | _ => false end.

(** The field [k] is missing, or null, or passes [ok]. *)
Definition optional (kvs : list (string * json)) (k : string)
    (ok : json -> bool) : bool :=
  match lookup k kvs with
  | None => true
  | Some v => is_null v || ok v
  end.

(** The field [k] is missing or passes [ok]. *)
Definition if_present (kvs : list (string * json)) (k : string)
    (ok : json -> bool) : bool :=
  match lookup k kvs with
  | None => true
  | Some v => ok v
  end.

Definition wf_timeframe (tf : json) : bool :=
  match tf with
  | JDict kvs =>
      optional kvs "day" is_num && optional kvs "from" is_str &&
      optional kvs "to" is_str
  | _ => false
  end.

Definition wf_scheduling (v : json) : bool :=
  match v with
  | JDict kvs =>
      optional kvs "timezone" is_str &&
      optional kvs "timeframes"
        (fun v => match v with
                  | JList l => forallb wf_timeframe l
                  | _ => false
                  end)
  | _ => false
  end.

Definition wf_options (v : json) : bool :=
  match v with
  | JDict kvs =>
      optional kvs "tick_every" is_num &&
      optional kvs "device_ids" is_str_list &&
      optional kvs "scheduling" wf_scheduling
  | _ => false
  end.

(** A record whose fields, where present, have the types the listing
    documents; any field may be missing, and any but [options] may be
    null. *)
Definition wf_test (test : json) : bool :=
  match test with
  | JDict kvs =>
      optional kvs "type" is_str &&
      optional kvs "status" is_str &&
      optional kvs "steps" is_list &&
      optional kvs "locations" is_str_list &&
      optional kvs "tags" is_str_list &&
      if_present kvs "options" wf_options
  | _ => false
  end.

(** The value of field [k], or [default] when the field is missing. *)
Definition field_or (kvs : list (string * json)) (k : string)
    (default : json) : json :=
  match lookup k kvs with
  | Some v => v
  | None => default
  end.

(** The row of a record with no field at all. *)
Definition default_row : row :=
  mkRow (JStr "N/A") (JStr "N/A") "" (JStr "N/A") "N/A" "N/A" "N/A" "N/A"
        "N/A" "N/A" (JStr "N/A") "N/A".

(** A sample listing: a scheduled browser test, a test whose options
    name devices only, and a record with no field. *)
Definition sample_listing : list json :=
  [ JDict [ ("type", JStr "Browser");
            ("steps", JList [JDict []; JDict []; JDict []]);
            ("tags", JNull);
            ("options",
             JDict [ ("tick_every", JNum 300);
                     ("scheduling",
                      JDict [ ("timeframes",
                               JList [ JDict [ ("day", JNum 1);
                                               ("from", JStr "06:00");
                                               ("to", JStr "20:00") ] ])
                            ]) ]) ];
    JDict [ ("type", JStr "browser");
            ("options",
             JDict [ ("device_ids", JList [JStr "chrome.laptop_large"]) ]) ];
    JDict [] ].

(** The options of a record: its [options], or the empty object when it
    has none. *)
Definition options_of (kvs : list (string * json)) : json :=
  field_or kvs "options" (JDict []).

(** The scheduling of the options: their [scheduling], or the empty object
    when they have none or a null or empty one. *)
Definition scheduling_of (okvs : list (string * json)) : json :=
  or_else (field_or okvs "scheduling" (JDict [])) (JDict []).

(** Every column of the row [r] whose field is missing from the record
    [kvs] holds its default, whatever the other fields are. *)
Definition defaults_hold (kvs : list (string * json)) (r : row) : Prop :=
  (lookup "public_id" kvs = None -> row_public_id r = JStr "N/A") /\
  (lookup "name" kvs = None -> row_name r = JStr "N/A") /\
  (lookup "type" kvs = None -> row_type r = ""%string) /\
  (lookup "subtype" kvs = None -> row_type r = "api"%string ->
   row_subtype r = JStr "N/A") /\
  (lookup "steps" kvs = None -> row_type r <> "api"%string ->
   row_subtype r = JStr "N/A") /\
  (lookup "status" kvs = None -> row_status r = "N/A"%string) /\
  (lookup "locations" kvs = None -> row_locations r = "N/A"%string) /\
  (lookup "monitor_id" kvs = None -> row_monitor_id r = "N/A"%string) /\
  (lookup "tags" kvs = None -> row_tags r = "N/A"%string) /\
  (forall okvs, options_of kvs = JDict okvs ->
     (lookup "tick_every" okvs = None -> row_frequency r = "N/A"%string) /\
     (lookup "device_ids" okvs = None ->
      row_device_ids r = "N/A"%string) /\
     (forall skvs, scheduling_of okvs = JDict skvs ->
        (lookup "timezone" skvs = None ->
         row_schedule_timezone r = JStr "N/A") /\
        (lookup "timeframes" skvs = None ->
         row_schedule_windows r = "N/A"%string))).

End SyntheticsSpec.

(** ** Vocabulary of the further statements *)

Module Behaviour.
Import Py GE_Alerts_extract datadog_synthetics_export Spec SyntheticsSpec.

Local Open Scope list_scope.

(** The first character, if any, is no white space. *)
Definition starts_clean (l : list ascii) : bool :=
  match l with
  | [] => true
  | c :: _ => negb (is_space c)
  end.

(** No white space at either end. *)
Definition trimmed (s : string) : bool :=
  starts_clean (chars s) && starts_clean (rev (chars s)).

(** The document has no [data] object that holds [monitors]. *)
Definition nested_absent (kvs : list (string * json)) : bool :=
  match lookup "data" kvs with
  | Some (JDict inner) =>
      match lookup "monitors" inner with Some _ => false | None => true end
  | _ => true
  end.

(** The document has neither of the two shapes. *)
Definition shapeless (doc : json) : bool :=
  match doc with
  | JDict kvs =>
      nested_absent kvs &&
      match lookup "monitors" kvs with Some _ => false | None => true end
  | _ => true
  end.

(** What the engine makes of a candidate list [ms]. *)
Definition summaries (ms : json) : result (list monitor) :=
  bind (iter (or_else ms (JList []))) select_monitors.

(** The label of day number [n]: its name from 1 to 7, else the number. *)
Definition day_name (n : Z) : string :=
  match day_lookup n DAY_MAP with
  | Some label => label
  | None => str_int n
  end.

(** The timeframe has a start and an end. *)
Definition complete (tf : json) : bool :=
  truthy (item tf "from") && truthy (item tf "to").

(** The window a complete timeframe is shown as. *)
Definition render (tf : json) : string :=
  let span := (str (item tf "from") ++ "-" ++ str (item tf "to"))%string in
  match item tf "day" with
  | JNum n => (day_name n ++ " " ++ span)%string
  | _ => span
  end.

(** A timeframe is an object whose [day], if any, is a number or null. *)
Definition timeframe_ok (tf : json) : bool :=
  match tf with
  | JDict kvs =>
      match lookup "day" kvs with
      | None | Some JNull | Some (JNum _) => true
      | _ => false
      end
  | _ => false
  end.

(** Two records that agree on every field but [type]. *)
Definition same_but_type (kvs1 kvs2 : list (string * json)) : Prop :=
  forall k, k <> "type"%string -> lookup k kvs1 = lookup k kvs2.

(** The export calls [main] makes for a table when none of them raises. *)
Definition files (output : output_format) (base : string) (df : list row)
  : list export :=
  match output with
  | csv => [csv_export (base ++ ".csv") df]
  | excel => [excel_export (base ++ ".xlsx") df]
  | both =>
      [csv_export (base ++ ".csv") df; excel_export (base ++ ".xlsx") df]
  end.

(** A writer that always succeeds, and one that always refuses. *)
Definition writes : list row -> string -> result unit :=
  fun _ _ => Return tt.

Definition refuses : list row -> string -> result unit :=
  fun _ _ => Raise ValueError.

(** [args.filename or "synthetic_tests"] *)
Definition base_name (filename : option string) : string :=
  match filename with
  | None => "synthetic_tests"
  | Some name => if String.eqb name "" then "synthetic_tests" else name
  end.

(** A Teams API that answers every keyword with the same response. *)
Definition teams_response (r : response) : string -> result response :=
  fun _ => Return r.

(** Sample responses and endpoints. *)
Definition forbidden : response :=
  mkResponse 403 "403 Client Error: Forbidden" (Return JNull).

Definition unavailable : response :=
  mkResponse 503 "503 Server Error: Service Unavailable" (Return JNull).

Definition null_data : response :=
  mkResponse 200 "" (Return (JDict [("data", JNull)])).

Definition nameless_first : list json :=
  [ JDict [("attributes", JDict [("name", JStr "Platform")])];
    team "Web" "web-core" ].

(** Both shapes at once: the nested list holds monitor 7, the flat one is
    empty. *)
Definition search_nested : string -> result json :=
  search_table
    [ ("team:web",
       Return (JDict [ ("data",
                        JDict [("monitors", JList [monitor_doc 7 "cpu"])]);
                       ("monitors", JList []) ])) ].

(** The first variant answers with a number among the monitors. *)
Definition search_malformed : string -> result json :=
  search_table [ ("team:web", Return (monitors_doc [JNum 5])) ].

Definition full_page : list json := repeat (JDict []) 100.

(** A listing whose first page is full and whose second is refused. *)
Definition listing_unavailable : Z -> Z -> result response :=
  fun page _ =>
    if (page =? 0)%Z then ok (tests_doc full_page) else Return unavailable.

(** A listing of which every page is full. *)
Definition listing_endless : Z -> Z -> result response :=
  fun _ _ => ok (tests_doc full_page).

Definition two_records : list json :=
  [ JDict []; JDict [("type", JStr "api")] ].

(** The row of the second of them. *)
Definition api_row : row :=
  mkRow (JStr "N/A") (JStr "N/A") "api" (JStr "N/A") "N/A" "N/A" "N/A" "N/A"
        "N/A" "N/A" (JStr "N/A") "N/A".

Definition scheduled : list (string * json) :=
  [ ("type", JStr "Browser");
    ("options",
     JDict [ ("scheduling",
              JDict [ ("timezone", JStr "Pacific/Auckland");
                      ("timeframes",
                       JList [ JDict [ ("day", JNum 1);
                                       ("from", JStr "06:00");
                                       ("to", JStr "20:00") ];
                               JDict [ ("day", JNum 9);
                                       ("from", JStr "07:00") ];
                               JDict [ ("from", JStr "08:00");
                                       ("to", JStr "09:00") ] ]) ]) ]) ].

End Behaviour.

(** ** Strings *)

Lemma append_assoc (a b c : string) :
  ((a ++ b) ++ c)%string = (a ++ b ++ c)%string.
Proof. induction a as [|x a IH]; simpl; [reflexivity|now rewrite IH]. Qed.

Lemma append_nil_r (a : string) : (a ++ "")%string = a.
Proof. induction a as [|x a IH]; simpl; [reflexivity|now rewrite IH]. Qed.

(** ** Positions in a list *)

Section Positions.

Local Open Scope list_scope.

Context {A : Type}.

Lemma nth_decompose (l : list A) (k : nat) (d : A) :
  (k < length l)%nat -> l = firstn k l ++ nth k l d :: skipn (S k) l.
Proof.
  revert k. induction l as [|a l IH]; intros k Hk; simpl in Hk; [lia|].
  destruct k; simpl; [reflexivity|]. f_equal. apply IH. lia.
Qed.

Lemma firstn_succ (l : list A) (k : nat) (d : A) :
  (k < length l)%nat -> firstn (S k) l = firstn k l ++ [nth k l d].
Proof.
  revert k. induction l as [|a l IH]; intros k Hk; simpl in Hk; [lia|].
  destruct k; [reflexivity|]. change (firstn (S (S k)) (a :: l)) with
    (a :: firstn (S k) l). rewrite (IH k) by lia. reflexivity.
Qed.

Lemma Forall_firstn (P : A -> Prop) (l : list A) (k : nat) (d : A) :
  (k <= length l)%nat -> (forall i, (i < k)%nat -> P (nth i l d)) ->
  Forall P (firstn k l).
Proof.
  revert k. induction l as [|a l IH]; intros k Hk H.
  - rewrite firstn_nil. constructor.
  - destruct k; simpl; constructor.
    + apply (H 0%nat). lia.
    + apply IH; [simpl in Hk; lia|]. intros i Hi. apply (H (S i)). lia.
Qed.

End Positions.

(** ** The Fallback Query Engine *)

Section FallbackQueryEngine.
Import Py GE_Alerts_extract Spec.

Local Open Scope list_scope.

Variable teams_api : string -> result response.
Variable datadog_get : string -> result json.

Abbreviation resolve := (_extract_team_handle teams_api).
Abbreviation search := (find_monitors_for_team teams_api datadog_get).
Abbreviation loop := (try_variants datadog_get).

Lemma select_monitors_dicts (candidates : list json) :
  forallb is_dict candidates = true ->
  select_monitors candidates = Return (id_filtered candidates).
Proof.
  induction candidates as [|m ms IH]; simpl; intros H; [reflexivity|].
  apply andb_true_iff in H as [Hm Hms].
  destruct m; try discriminate. unfold id_filtered, has_id, summary. simpl.
  destruct (lookup "id" kvs) as [i|] eqn:Ei; simpl.
  - destruct i; simpl; rewrite ?Ei, ?(IH Hms); try reflexivity;
      destruct (lookup "name" kvs); reflexivity.
  - apply IH, Hms.
Qed.

Lemma attempt_yields (q : string) (l : list monitor) :
  yields datadog_get q l -> attempt datadog_get q = Return l.
Proof.
  intros (data & cands & Hget & Hiter & Hdicts & ->).
  unfold attempt. rewrite Hget. simpl. rewrite Hiter. simpl.
  apply select_monitors_dicts, Hdicts.
Qed.

Lemma attempt_rejected (q : string) (e : http_error) :
  rejected datadog_get q e -> attempt datadog_get q = Raise (HTTPError e).
Proof. intros H. unfold attempt. rewrite H. reflexivity. Qed.

(** *** One turn of the variant loop *)

Section Turn.
Variables (team_input : string) (handle : json).
Variables (q : string) (qs : list string) (last_err : option http_error).

Lemma loop_rejected (e : http_error) :
  rejected datadog_get q e ->
  loop team_input handle (q :: qs) last_err =
  (q :: fst (loop team_input handle qs (Some e)),
   snd (loop team_input handle qs (Some e))).
Proof.
  intros H. simpl. rewrite (attempt_rejected _ _ H).
  destruct (loop team_input handle qs (Some e)); reflexivity.
Qed.

Lemma loop_empty :
  yields datadog_get q [] ->
  loop team_input handle (q :: qs) last_err =
  (q :: fst (loop team_input handle qs last_err),
   snd (loop team_input handle qs last_err)).
Proof.
  intros H. simpl. rewrite (attempt_yields _ _ H).
  destruct (loop team_input handle qs last_err); reflexivity.
Qed.

Lemma loop_hit (l : list monitor) :
  yields datadog_get q l -> l <> [] ->
  loop team_input handle (q :: qs) last_err = ([q], Return (Some l)).
Proof.
  intros H Hne. simpl. rewrite (attempt_yields _ _ H).
  destruct l; [contradiction|reflexivity].
Qed.

Lemma loop_raise (e : exn) :
  datadog_get q = Raise e -> (forall h, e <> HTTPError h) ->
  loop team_input handle (q :: qs) last_err = ([q], Raise e).
Proof.
  intros H Hne. simpl. unfold attempt. rewrite H. simpl.
  destruct e; try reflexivity. now contradiction (Hne e).
Qed.

End Turn.

(** *** The loop over a list of variants *)

Lemma loop_first_hit team_input handle pre q post l last_err :
  Forall (passed_over datadog_get) pre ->
  yields datadog_get q l -> l <> [] ->
  loop team_input handle (pre ++ q :: post) last_err =
  (pre ++ [q], Return (Some l)).
Proof.
  intros Hpre Hq Hl. revert last_err.
  induction Hpre as [|p pre [[e Hp]|Hp] _ IH]; intros last_err; cbn [app].
  - now apply loop_hit.
  - rewrite (loop_rejected _ _ _ _ _ _ Hp), IH. reflexivity.
  - rewrite (loop_empty _ _ _ _ _ Hp), IH. reflexivity.
Qed.

Lemma loop_propagates team_input handle pre q post e last_err :
  Forall (passed_over datadog_get) pre ->
  datadog_get q = Raise e -> (forall h, e <> HTTPError h) ->
  loop team_input handle (pre ++ q :: post) last_err = (pre ++ [q], Raise e).
Proof.
  intros Hpre Hq He. revert last_err.
  induction Hpre as [|p pre [[e' Hp]|Hp] _ IH]; intros last_err; cbn [app].
  - now apply loop_raise.
  - rewrite (loop_rejected _ _ _ _ _ _ Hp), IH. reflexivity.
  - rewrite (loop_empty _ _ _ _ _ Hp), IH. reflexivity.
Qed.

Lemma loop_recovers team_input handle pre q post h last_err :
  Forall (passed_over datadog_get) pre ->
  rejected datadog_get q h ->
  loop team_input handle (pre ++ q :: post) last_err =
  (pre ++ q :: fst (loop team_input handle post (Some h)),
   snd (loop team_input handle post (Some h))).
Proof.
  intros Hpre Hq. revert last_err.
  induction Hpre as [|p pre [[e' Hp]|Hp] _ IH]; intros last_err; cbn [app].
  - now apply loop_rejected.
  - rewrite (loop_rejected _ _ _ _ _ _ Hp), IH. reflexivity.
  - rewrite (loop_empty _ _ _ _ _ Hp), IH. reflexivity.
Qed.

Lemma loop_all_empty team_input handle qs last_err :
  Forall (fun q => yields datadog_get q []) qs ->
  loop team_input handle qs last_err =
  (qs, after_loop team_input handle last_err).
Proof.
  induction 1 as [|q qs Hq _ IH]; [reflexivity|].
  rewrite (loop_empty _ _ _ _ _ Hq), IH. reflexivity.
Qed.

Lemma loop_sends_prefix team_input handle qs last_err :
  exists n, fst (loop team_input handle qs last_err) = firstn n qs.
Proof.
  revert last_err. induction qs as [|q qs IH]; intros last_err.
  - exists 0%nat. reflexivity.
  - simpl. destruct (attempt datadog_get q) as [[|m ms]|e].
    + destruct (IH last_err) as [n Hn]. exists (S n).
      destruct (loop team_input handle qs last_err). simpl in *. now f_equal.
    + exists 1%nat. reflexivity.
    + destruct e; try (exists 1%nat; reflexivity).
      destruct (IH (Some e)) as [n Hn]. exists (S n).
      destruct (loop team_input handle qs (Some e)). simpl in *. now f_equal.
Qed.

(** *** The engine *)

Lemma search_resolved team_input handle :
  resolve team_input = Return handle ->
  search team_input = loop team_input handle (variants handle) None.
Proof. intros H. unfold find_monitors_for_team. rewrite H. reflexivity. Qed.

Lemma variants_length handle : length (variants handle) = 4%nat.
Proof. reflexivity. Qed.

(** C1. Once the handle is resolved, the engine sends the queries
    [team:h], [team:"h"], [teams:h], [teams:"h"] in that order and nothing
    else; when the first [k] of them are passed over and the next one has a
    non-empty id-filtered list, that list is the result and the requests
    stop there. *)
Theorem first_success_wins team_input handle :
  resolve team_input = Return handle ->
  variants handle =
    [ ("team:" ++ str handle)%string;
      ("team:" ++ quoted (str handle))%string;
      ("teams:" ++ str handle)%string;
      ("teams:" ++ quoted (str handle))%string ] /\
  (exists n, fst (search team_input) = firstn n (variants handle)) /\
  (forall k l, (k < 4)%nat ->
     (forall i, (i < k)%nat ->
        passed_over datadog_get (nth i (variants handle) "")) ->
     yields datadog_get (nth k (variants handle) "") l -> l <> [] ->
     search team_input = (firstn (S k) (variants handle), Return (Some l))).
Proof.
  intros Hres. rewrite (search_resolved _ _ Hres). split; [reflexivity|]. split.
  - apply loop_sends_prefix.
  - intros k l Hk Hpre Hq Hl.
    rewrite (firstn_succ _ k "") by (rewrite variants_length; lia).
    rewrite (nth_decompose (variants handle) k "") at 1
      by (rewrite variants_length; lia).
    apply loop_first_hit; trivial.
    apply Forall_firstn with (d := ""%string); trivial.
    rewrite variants_length; lia.
Qed.

Lemma loop_sends_head team_input handle q qs last_err :
  exists sent, fst (loop team_input handle (q :: qs) last_err) = q :: sent.
Proof.
  simpl. destruct (attempt datadog_get q) as [[|m ms]|e].
  - destruct (loop team_input handle qs last_err). eexists; reflexivity.
  - eexists; reflexivity.
  - destruct e; try (eexists; reflexivity).
    destruct (loop team_input handle qs (Some e)). eexists; reflexivity.
Qed.

(** An HTTP error never leaves the [try]: the engine raises none. *)
Lemma loop_raises_no_http team_input handle qs last_err (h : http_error) :
  snd (loop team_input handle qs last_err) <> Raise (HTTPError h).
Proof.
  revert last_err. induction qs as [|q qs IH]; intros last_err.
  - simpl. destruct last_err; discriminate.
  - simpl. destruct (attempt datadog_get q) as [[|m ms]|e] eqn:E.
    + specialize (IH last_err).
      destruct (loop team_input handle qs last_err). exact IH.
    + discriminate.
    + destruct e; try discriminate.
      specialize (IH (Some e)).
      destruct (loop team_input handle qs (Some e)). exact IH.
Qed.

(** C2 (amended). An [HTTPError] of any status from the search request, a
    client error or a server error alike, is recovered: the loop records it
    and goes on with the remaining variants, and no [HTTPError] ever leaves
    the engine. Any other failure of the search request propagates at once,
    and no further variant is tried. *)
Theorem http_errors_recovered_others_propagate team_input handle k e :
  resolve team_input = Return handle -> (k < 4)%nat ->
  (forall i, (i < k)%nat ->
     passed_over datadog_get (nth i (variants handle) "")) ->
  datadog_get (nth k (variants handle) "") = Raise e ->
  (forall h, e = HTTPError h ->
     let rest :=
       loop team_input handle (skipn (S k) (variants handle)) (Some h) in
     search team_input = (firstn (S k) (variants handle) ++ fst rest, snd rest)
     /\ ((k < 3)%nat ->
         nth (S k) (fst (search team_input)) "" =
         nth (S k) (variants handle) "")
     /\ snd (search team_input) <> Raise e) /\
  ((forall h, e <> HTTPError h) ->
     search team_input = (firstn (S k) (variants handle), Raise e)).
Proof.
  intros Hres Hk Hpre Hq.
  assert (Hlen : (k < length (variants handle))%nat)
    by (rewrite variants_length; exact Hk).
  assert (Hall : Forall (passed_over datadog_get) (firstn k (variants handle))).
  { apply Forall_firstn with (d := ""%string); [lia|exact Hpre]. }
  rewrite (search_resolved _ _ Hres). split.
  - intros h ->. cbv zeta.
    assert (Hrun : loop team_input handle (variants handle) None =
                   (firstn (S k) (variants handle) ++
                    fst (loop team_input handle (skipn (S k) (variants handle))
                           (Some h)),
                    snd (loop team_input handle (skipn (S k) (variants handle))
                           (Some h)))).
    { rewrite (nth_decompose (variants handle) k "" Hlen) at 1.
      rewrite (loop_recovers _ _ _ _ _ h None Hall Hq).
      rewrite (firstn_succ _ k "" Hlen), <- app_assoc. reflexivity. }
    split; [exact Hrun|]. split.
    + intros Hk3. rewrite Hrun. cbn [fst].
      assert (Hn : length (firstn (S k) (variants handle)) = S k)
        by (rewrite length_firstn, variants_length; lia).
      rewrite app_nth2 by lia. rewrite Hn, Nat.sub_diag.
      assert (Hlen' : (S k < length (variants handle))%nat)
        by (rewrite variants_length; lia).
      pose proof (nth_decompose (variants handle) (S k) "" Hlen') as Hd.
      assert (Hs : skipn (S k) (variants handle) =
                   nth (S k) (variants handle) ""
                   :: skipn (S (S k)) (variants handle)).
      { rewrite Hd at 1. rewrite skipn_app, length_firstn.
        rewrite skipn_all2 by (rewrite length_firstn; lia).
        replace (S k - Nat.min (S k) (length (variants handle)))%nat
          with 0%nat by lia. reflexivity. }
      rewrite Hs.
      destruct (loop_sends_head team_input handle
                  (nth (S k) (variants handle) "")
                  (skipn (S (S k)) (variants handle)) (Some h)) as [sent ->].
      reflexivity.
    + apply loop_raises_no_http.
  - intros He.
    rewrite (nth_decompose (variants handle) k "" Hlen) at 1.
    rewrite (firstn_succ _ k "" Hlen).
    now apply loop_propagates.
Qed.

(** C3. When all four variants succeed and each has an empty id-filtered
    list, the engine raises nothing: after its four requests it returns
    [None], which no raised error can be mistaken for. *)
Theorem no_matches team_input handle :
  resolve team_input = Return handle ->
  (forall q, In q (variants handle) -> yields datadog_get q []) ->
  search team_input = (variants handle, Return None) /\
  (forall e, snd (search team_input) <> Raise e).
Proof.
  intros Hres Hall. rewrite (search_resolved _ _ Hres).
  rewrite loop_all_empty by (apply Forall_forall; exact Hall).
  split; [reflexivity|]. discriminate.
Qed.

(** Among variants that are all passed over, either none is refused or
    there is a last one refused. *)
Lemma last_refused (qs : list string) :
  Forall (passed_over datadog_get) qs ->
  Forall (fun q => yields datadog_get q []) qs \/
  exists before q after h,
    qs = before ++ q :: after /\ rejected datadog_get q h /\
    Forall (passed_over datadog_get) before /\
    Forall (fun q' => yields datadog_get q' []) after.
Proof.
  induction 1 as [|q qs Hq Hqs IH]; [left; constructor|].
  destruct IH as [Hnone|(before & q' & after & h & -> & Hq' & Hb & Ha)].
  - destruct Hq as [[h Hq]|Hq].
    + right. exists [], q, qs, h. auto.
    + left. constructor; assumption.
  - right. exists (q :: before), q', after, h. auto.
Qed.

(** C4. When every variant is refused or comes back empty and at least
    one is refused, there is a last refused variant, and the engine, after
    all four requests, raises a [RuntimeError] whose message holds the
    keyword, the resolved handle and the text of that last error. *)
Theorem aggregated_failure team_input handle :
  resolve team_input = Return handle ->
  Forall (passed_over datadog_get) (variants handle) ->
  Exists (fun q => exists h, rejected datadog_get q h) (variants handle) ->
  exists before q after h,
    variants handle = before ++ q :: after /\
    rejected datadog_get q h /\
    Forall (fun q' => yields datadog_get q' []) after /\
    let message := failure_message team_input handle h in
    search team_input = (variants handle, Raise (RuntimeError message)) /\
    contains message team_input /\
    contains message (str handle) /\
    contains message (detail h).
Proof.
  intros Hres Hall Hsome.
  destruct (last_refused _ Hall)
    as [Hnone|(before & q & after & h & Hsplit & Hq & Hb & Ha)].
  { exfalso. apply Exists_exists in Hsome as (q & Hin & h & Hq).
    rewrite Forall_forall in Hnone.
    destruct (Hnone q Hin) as (data & _ & Hdata & _).
    unfold rejected in Hq. congruence. }
  exists before, q, after, h. repeat split; trivial.
  - rewrite (search_resolved _ _ Hres). rewrite Hsplit at 1.
    rewrite (loop_recovers _ _ _ _ _ h None Hb Hq).
    rewrite (loop_all_empty _ _ _ _ Ha). cbn [fst snd after_loop].
    now rewrite <- Hsplit.
  - eexists _, _. unfold failure_message. reflexivity.
  - exists ("Failed to search monitors for team '" ++ team_input ++
            "' (resolved handle '")%string,
           ("'). " ++ "Last error: " ++ detail h)%string.
    unfold failure_message. rewrite !append_assoc. reflexivity.
  - exists ("Failed to search monitors for team '" ++ team_input ++
            "' (resolved handle '" ++ str handle ++ "'). " ++
            "Last error: ")%string, ""%string.
    unfold failure_message. rewrite append_nil_r, !append_assoc. reflexivity.
Qed.

End FallbackQueryEngine.

(** ** The Identifier Resolver *)

Section IdentifierResolver.
Import Py GE_Alerts_extract Spec.

Local Open Scope list_scope.

Variable teams_api : string -> result response.

Abbreviation resolve := (_extract_team_handle teams_api).
Abbreviation list_teams := (_list_teams_by_keyword teams_api).

Lemma team_view_inv (t : json) (name handle : string) :
  team_view t = Some (name, handle) ->
  exists kvs attrs,
    t = JDict kvs /\ lookup "attributes" kvs = Some (JDict attrs) /\
    lookup "name" attrs = Some (JStr name) /\
    lookup "handle" attrs = Some (JStr handle).
Proof.
  destruct t as [| | | | |kvs]; try discriminate. simpl.
  destruct (lookup "attributes" kvs) as [[| | | | |attrs]|] eqn:Ea;
    try discriminate.
  destruct (lookup "name" attrs) as [[| | |n| |]|] eqn:En; try discriminate.
  destruct (lookup "handle" attrs) as [[| | |h| |]|] eqn:Eh; try discriminate.
  intros [= <- <-]. exists kvs, attrs. auto.
Qed.

Lemma lookup_some_truthy (k : string) (attrs : list (string * json)) v :
  lookup k attrs = Some v -> or_else (JDict attrs) (JDict []) = JDict attrs.
Proof. destruct attrs; [discriminate|reflexivity]. Qed.

(** One turn of the scan on a record that has a name and a handle. *)
Lemma exact_match_cons keyword t name handle rest :
  team_view t = Some (name, handle) ->
  exact_match keyword (t :: rest) =
  if matches keyword (name, handle) then Return (Some (JStr handle))
  else exact_match keyword rest.
Proof.
  intros (kvs & attrs & -> & Ha & Hn & Hh)%team_view_inv.
  simpl. rewrite Ha. simpl. rewrite (lookup_some_truthy _ _ _ Hn).
  simpl. rewrite Hn, Hh. reflexivity.
Qed.

(** The scan returns the handle of the first matching record. *)
Lemma exact_match_views keyword records views :
  map team_view records = map Some views ->
  exact_match keyword records =
  Return (option_map (fun nh => JStr (snd nh)) (find (matches keyword) views)).
Proof.
  revert views. induction records as [|t records IH]; intros [|[n h] views];
    try discriminate; [reflexivity|].
  intros [= Ht Hrest]. rewrite (exact_match_cons _ _ _ _ _ Ht). simpl find.
  destruct (matches keyword (n, h)); [reflexivity|]. now apply IH.
Qed.

Lemma exact_match_app keyword pre rest :
  exact_match keyword pre = Return None ->
  exact_match keyword (pre ++ rest) = exact_match keyword rest.
Proof.
  induction pre as [|t pre IH]; [reflexivity|]. simpl.
  destruct (get t "attributes" (JDict [])) as [a|]; simpl; [|discriminate].
  destruct (get (or_else a (JDict [])) "name" (JStr "")) as [n|]; simpl;
    [|discriminate].
  destruct (get (or_else a (JDict [])) "handle" (JStr "")) as [h|]; simpl;
    [|discriminate].
  destruct (lower_value n); simpl; [|discriminate].
  destruct (lower_value h); simpl; [|discriminate].
  destruct (_ || _); [discriminate|exact IH].
Qed.

Lemma resolve_records keyword t records :
  list_teams keyword = Return (JList (t :: records)) ->
  resolve keyword =
  (found <- exact_match keyword (t :: records) ;;
   match found with
   | Some handle => Return handle
   | None =>
       a <- get t "attributes" (JDict []) ;;
       get a "handle" (JStr (synthesized keyword))
   end).
Proof. intros H. unfold _extract_team_handle. rewrite H. reflexivity. Qed.

(** A handle the scan returns passed [handle.lower()], so it is a string;
    a scan that runs to its end found a string (or nothing) under [handle]
    in every record. *)
Lemma exact_match_str keyword records found :
  exact_match keyword records = Return found ->
  match found with
  | Some handle => exists s, handle = JStr s
  | None =>
      forall t, In t records ->
      exists a, get t "attributes" (JDict []) = Return a /\
                exists s, get (or_else a (JDict [])) "handle" (JStr "") =
                          Return (JStr s)
  end.
Proof.
  revert found. induction records as [|t records IH]; intros found.
  - intros [= <-]. intros t [].
  - simpl.
    destruct (get t "attributes" (JDict [])) as [a|] eqn:Ea; simpl;
      [|discriminate].
    destruct (get (or_else a (JDict [])) "name" (JStr "")) as [n|]; simpl;
      [|discriminate].
    destruct (get (or_else a (JDict [])) "handle" (JStr "")) as [h|] eqn:Eh;
      simpl; [|discriminate].
    destruct (lower_value n); simpl; [|discriminate].
    destruct h as [| | |s| |]; simpl; try discriminate.
    destruct (_ || _).
    + intros [= <-]. eauto.
    + intros H. specialize (IH found H). destruct found; [exact IH|].
      intros t' [<-|Hin]; [|now apply IH].
      exists a. split; [exact Ea|]. rewrite Eh. eauto.
Qed.

(** Whatever the lookup returns, a handle the resolver returns is a
    string. *)
Lemma resolve_str keyword handle :
  resolve keyword = Return handle -> exists s, handle = JStr s.
Proof.
  unfold _extract_team_handle.
  destruct (list_teams keyword) as [teams|]; simpl; [|discriminate].
  destruct (truthy teams); simpl; [|intros [= <-]; eauto].
  destruct (iter teams) as [items|] eqn:Ei; simpl; [|discriminate].
  destruct (exact_match keyword items) as [found|] eqn:Em; simpl;
    [|discriminate].
  apply exact_match_str in Em. destruct found as [h|].
  - intros [= <-]. exact Em.
  - destruct (first teams) as [t0|] eqn:Ef; simpl; [|discriminate].
    assert (Hin : In t0 items).
    { destruct teams as [| | |s|l|]; try discriminate.
      - destruct s; [discriminate|]. injection Ef as <-. injection Ei as <-.
        left. reflexivity.
      - destruct l; [discriminate|]. injection Ef as <-. injection Ei as <-.
        left. reflexivity. }
    destruct (Em t0 Hin) as (a & -> & s & Hs). simpl.
    destruct a as [| | | | |akvs]; simpl; try discriminate.
    destruct akvs as [|kv akvs].
    + simpl. intros [= <-]. eauto.
    + change (or_else (JDict (kv :: akvs)) (JDict []))
        with (JDict (kv :: akvs)) in Hs.
      unfold get in Hs.
      destruct (lookup "handle" (kv :: akvs)); intros [= <-];
        [injection Hs as ->|]; eauto.
Qed.

(** C5 (amended). When the lookup returns no record, the resolver raises
    nothing and returns the keyword with the white space at its two ends
    stripped, lower-cased, and with the spaces that remain replaced by
    hyphens; for a keyword with no white space at its ends that is the
    keyword lower-cased with spaces replaced by hyphens. *)
Theorem zero_records_synthesized (keyword : string) :
  list_teams keyword = Return (JList []) ->
  resolve keyword = Return (JStr (replace " " "-" (lower (strip keyword)))) /\
  (strip keyword = keyword ->
   resolve keyword = Return (JStr (replace " " "-" (lower keyword)))).
Proof.
  intros H. unfold _extract_team_handle. rewrite H. simpl.
  split; [reflexivity|]. intros Hs. unfold synthesized. now rewrite Hs.
Qed.

(** C6. When the lookup returns records, each with a name and a handle,
    the resolver returns the handle of the first record, in the order
    returned, whose name or handle equals the keyword letter case aside,
    wherever in the list that record stands; when no record matches, it
    returns the handle of the first record. *)
Theorem exact_match_preferred keyword records first_view views :
  list_teams keyword = Return (JList records) ->
  map team_view records = map Some (first_view :: views) ->
  resolve keyword =
  Return (JStr (snd (match find (matches keyword) (first_view :: views) with
                     | Some matching => matching
                     | None => first_view
                     end))).
Proof.
  intros Hteams Hviews. destruct records as [|t records]; [discriminate|].
  rewrite (resolve_records _ _ _ Hteams).
  rewrite (exact_match_views _ _ _ Hviews).
  destruct (find (matches keyword) (first_view :: views)) as [nh|];
    [reflexivity|]. simpl.
  injection Hviews as Ht _. destruct first_view as [n h].
  apply team_view_inv in Ht as (kvs & attrs & -> & Ha & Hn & Hh).
  simpl. rewrite Ha. simpl. rewrite Hh. reflexivity.
Qed.

(** C10. When the first record that matches the keyword does so by its
    name and its attributes have no [handle] key, the resolver returns the
    empty string. *)
Theorem matched_record_without_handle keyword before views kvs attrs name
    after :
  list_teams keyword =
    Return (JList (before ++ JDict kvs :: after)) ->
  map team_view before = map Some views ->
  find (matches keyword) views = None ->
  lookup "attributes" kvs = Some (JDict attrs) ->
  lookup "name" attrs = Some (JStr name) ->
  lookup "handle" attrs = None ->
  lower name = lower keyword ->
  resolve keyword = Return (JStr "").
Proof.
  intros Hteams Hviews Hnone Ha Hn Hh Hmatch.
  assert (Hscan : exact_match keyword (before ++ JDict kvs :: after) =
                  Return (Some (JStr ""))).
  { rewrite exact_match_app
      by (rewrite (exact_match_views _ _ _ Hviews), Hnone; reflexivity).
    simpl. rewrite Ha. simpl. rewrite (lookup_some_truthy _ _ _ Hn).
    simpl. rewrite Hn, Hh. simpl. rewrite Hmatch, String.eqb_refl.
    reflexivity. }
  destruct before as [|t before]; cbn [app] in Hteams, Hscan;
    rewrite (resolve_records _ _ _ Hteams), Hscan; reflexivity.
Qed.

End IdentifierResolver.

(** *** The engine on the sample endpoints *)

Section EngineSamples.
Import Py GE_Alerts_extract Spec.

Local Open Scope list_scope.

Ltac empty_answer :=
  exists (monitors_doc []), []; repeat split; reflexivity.

(** The first variant is refused, the second finds monitor 7: two requests. *)
Lemma first_success_wins_witness :
  find_monitors_for_team sample_teams sample_search "Web" =
  ([ "team:web"; ("team:" ++ quoted "web")%string ],
   Return (Some [mkMonitor (JNum 7) (JStr "cpu")])).
Proof.
  destruct (first_success_wins sample_teams sample_search "Web" (JStr "web")
              eq_refl) as (_ & _ & H).
  apply (H 1%nat).
  - lia.
  - intros i Hi. assert (i = 0%nat) as -> by lia.
    left. eexists. reflexivity.
  - exists (monitors_doc [monitor_doc 7 "cpu"]), [monitor_doc 7 "cpu"].
    repeat split; reflexivity.
  - discriminate.
Defined.

(** C2, as stated, fails. The search endpoint answers the first variant
    with a 500, which is no client error; the engine does not let it
    propagate but goes on to the second variant and returns what that one
    finds. *)
Lemma server_error_is_recovered :
  _extract_team_handle sample_teams "Web" = Return (JStr "web") /\
  search_500 "team:web" =
    Raise (http 500 "500 Server Error: Internal Server Error") /\
  ~ client_error (http 500 "500 Server Error: Internal Server Error") /\
  find_monitors_for_team sample_teams search_500 "Web" =
    ([ "team:web"; ("team:" ++ quoted "web")%string ],
     Return (Some [mkMonitor (JNum 7) (JStr "cpu")])) /\
  find_monitors_for_team sample_teams search_500 "Web" <>
    ([ "team:web" ],
     Raise (http 500 "500 Server Error: Internal Server Error")).
Proof.
  split; [reflexivity|]. split; [reflexivity|]. split.
  - intros (h & [= <-] & Hlo & Hhi). simpl in Hhi. lia.
  - split; [reflexivity|discriminate].
Qed.

(** The connection drops on the second variant: the failure propagates after two requests. *)
Lemma http_errors_recovered_others_propagate_witness :
  find_monitors_for_team sample_teams search_dropped "Web" =
  ([ "team:web"; ("team:" ++ quoted "web")%string ],
   Raise (RequestException "Connection aborted")).
Proof.
  apply (http_errors_recovered_others_propagate sample_teams search_dropped
           "Web" (JStr "web") 1%nat (RequestException "Connection aborted")).
  - reflexivity.
  - lia.
  - intros i Hi. assert (i = 0%nat) as -> by lia. right. empty_answer.
  - reflexivity.
  - discriminate.
Defined.

(** Every variant comes back empty: four requests, then [None]. *)
Lemma no_matches_witness :
  find_monitors_for_team sample_teams (search_table []) "Web" =
  (variants (JStr "web"), Return None).
Proof.
  apply (no_matches sample_teams (search_table []) "Web" (JStr "web")).
  - reflexivity.
  - intros q _. empty_answer.
Defined.

(** The third variant is the last one refused: its text ends the message. *)
Lemma aggregated_failure_witness :
  exists before q after h,
    variants (JStr "web") = before ++ q :: after /\
    rejected search_refused q h /\
    Forall (fun q' => yields search_refused q' []) after /\
    find_monitors_for_team sample_teams search_refused "Web" =
      (variants (JStr "web"),
       Raise (RuntimeError (failure_message "Web" (JStr "web") h))) /\
    contains (failure_message "Web" (JStr "web") h) "Web" /\
    contains (failure_message "Web" (JStr "web") h) "web" /\
    contains (failure_message "Web" (JStr "web") h) (detail h).
Proof.
  apply (aggregated_failure sample_teams search_refused "Web" (JStr "web")).
  - reflexivity.
  - unfold variants. repeat apply Forall_cons; [| | | |apply Forall_nil].
    + left. eexists. reflexivity.
    + right. empty_answer.
    + left. eexists. reflexivity.
    + right. empty_answer.
  - apply Exists_cons_hd. eexists. reflexivity.
Defined.

(** On that input the message ends with the text of the third variant's
    error, the last one refused. *)
Example aggregated_failure_sample :
  snd (find_monitors_for_team sample_teams search_refused "Web") =
  Raise (RuntimeError
           ("Failed to search monitors for team 'Web' " ++
            "(resolved handle 'web'). " ++
            "Last error: 400 Client Error: three")%string).
Proof. reflexivity. Qed.

End EngineSamples.

(** *** The resolver on sample lookups *)

Section ResolverSamples.
Import Py GE_Alerts_extract Spec.

Local Open Scope list_scope.

(** C5, as stated, fails. The lookup returns no record for the keyword
    [" Web Team"]; lower-casing it and replacing its spaces by hyphens gives
    ["-web-team"], but the resolver strips the keyword first and returns
    ["web-team"]. *)
Lemma outer_space_is_stripped :
  _list_teams_by_keyword (teams_fixed []) " Web Team" = Return (JList []) /\
  replace " " "-" (lower " Web Team") = "-web-team"%string /\
  _extract_team_handle (teams_fixed []) " Web Team" =
    Return (JStr "web-team") /\
  _extract_team_handle (teams_fixed []) " Web Team" <>
    Return (JStr (replace " " "-" (lower " Web Team"))).
Proof. repeat split; try reflexivity. discriminate. Qed.

(** No record for the keyword: the handle is made from the keyword. *)
Lemma zero_records_synthesized_witness :
  _extract_team_handle (teams_fixed []) " Web Team " =
    Return (JStr "web-team") /\
  _extract_team_handle (teams_fixed []) "Web Team" =
    Return (JStr (replace " " "-" (lower "Web Team"))).
Proof.
  split.
  - exact (proj1 (zero_records_synthesized (teams_fixed []) " Web Team "
                    eq_refl)).
  - exact (proj2 (zero_records_synthesized (teams_fixed []) "Web Team"
                    eq_refl) eq_refl).
Defined.

(** The second record matches [WEB] by its name; nothing matches [ops]. *)
Lemma exact_match_preferred_witness :
  _extract_team_handle
    (teams_fixed [team "Platform" "platform"; team "Web" "web-core"]) "WEB" =
    Return (JStr "web-core") /\
  _extract_team_handle
    (teams_fixed [team "Platform" "platform"; team "Web" "web-core"]) "ops" =
    Return (JStr "platform").
Proof.
  split.
  - exact (exact_match_preferred
             (teams_fixed [team "Platform" "platform"; team "Web" "web-core"])
             "WEB" [team "Platform" "platform"; team "Web" "web-core"]
             ("Platform", "platform")%string [("Web", "web-core")%string]
             eq_refl eq_refl).
  - exact (exact_match_preferred
             (teams_fixed [team "Platform" "platform"; team "Web" "web-core"])
             "ops" [team "Platform" "platform"; team "Web" "web-core"]
             ("Platform", "platform")%string [("Web", "web-core")%string]
             eq_refl eq_refl).
Defined.

(** The second record matches by name and has no handle. *)
Lemma matched_record_without_handle_witness :
  _extract_team_handle
    (teams_fixed [ team "Platform" "platform";
                   JDict [("attributes", JDict [("name", JStr "Web")])] ])
    "web" = Return (JStr "").
Proof.
  apply (matched_record_without_handle _ "web" [team "Platform" "platform"]
           [("Platform", "platform")%string]
           [("attributes", JDict [("name", JStr "Web")])]
           [("name", JStr "Web")] "Web" []); reflexivity.
Defined.

End ResolverSamples.

(** ** The Duration Formatter *)

Section DurationFormatter.
Import Py datadog_synthetics_export Spec SyntheticsSpec.

Local Open Scope list_scope.
Local Open Scope Z_scope.

Variable int_of_str : string -> option Z.

Abbreviation seconds_to_human := (format_seconds_to_human int_of_str).

Lemma format_number (n : Z) :
  seconds_to_human (JNum n) =
  Return (if n =? 0 then "0 seconds"%string
          else if n mod 3600 =? 0 then counted (n / 3600) "hour"
          else if n mod 60 =? 0 then counted (n / 60) "minute"
          else (str_int n ++ " seconds")%string).
Proof.
  unfold format_seconds_to_human, counted. simpl.
  destruct (n =? 0) eqn:E0; simpl; [reflexivity|].
  destruct (n mod 3600 =? 0); [destruct (n / 3600 =? 1); reflexivity|].
  destruct (n mod 60 =? 0); [destruct (n / 60 =? 1); reflexivity|].
  reflexivity.
Qed.

(** The formatter raises nothing. *)
Lemma format_total (v : json) : exists s, seconds_to_human v = Return s.
Proof.
  unfold format_seconds_to_human.
  destruct (negb (truthy v) && negb (eq_zero v)); [eauto|].
  destruct v as [| b | n | s | l | kvs]; simpl; eauto.
  - destruct b; simpl; eauto.
  - repeat match goal with |- context [if ?c then _ else _] =>
      destruct c end; eauto.
  - destruct (int_of_str s) as [n|]; eauto.
    repeat match goal with |- context [if ?c then _ else _] =>
      destruct c end; eauto.
Qed.

(** C7. [None], and any input that [int] does not convert, gives ["N/A"];
    0 gives ["0 seconds"]; another multiple of 3600 gives the hours, a
    multiple of 60 that is no multiple of 3600 the minutes, each in the
    singular for 1 and in the plural otherwise; anything else the seconds.
    The hour test comes first, so 3600 is ["1 hour"]. *)
Theorem seconds_to_human_cases :
  seconds_to_human JNull = Return "N/A"%string /\
  (forall v, (forall n, int int_of_str v <> Return n) ->
     seconds_to_human v = Return "N/A"%string) /\
  seconds_to_human (JNum 0) = Return "0 seconds"%string /\
  (forall n, n <> 0 -> n mod 3600 = 0 ->
     seconds_to_human (JNum n) = Return (counted (n / 3600) "hour")) /\
  (forall n, n mod 3600 <> 0 -> n mod 60 = 0 ->
     seconds_to_human (JNum n) = Return (counted (n / 60) "minute")) /\
  (forall n, n mod 60 <> 0 ->
     seconds_to_human (JNum n) = Return (str_int n ++ " seconds")%string) /\
  seconds_to_human (JNum 3600) = Return "1 hour"%string /\
  seconds_to_human (JNum 7200) = Return "2 hours"%string /\
  seconds_to_human (JNum 120) = Return "2 minutes"%string /\
  seconds_to_human (JNum 90) = Return "90 seconds"%string.
Proof.
  split; [reflexivity|]. split.
  { intros v Hv. unfold format_seconds_to_human.
    destruct (negb (truthy v) && negb (eq_zero v)); [reflexivity|].
    destruct v as [| b | n | s | l | kvs]; simpl in *; try reflexivity.
    - now contradiction (Hv (if b then 1 else 0)).
    - now contradiction (Hv n).
    - destruct (int_of_str s) as [n|]; [|reflexivity].
      now contradiction (Hv n). }
  split; [reflexivity|]. split.
  { intros n Hn Hh. rewrite format_number.
    destruct (Z.eqb_spec n 0); [contradiction|].
    now rewrite Hh. }
  split.
  { intros n Hh Hm. rewrite format_number.
    destruct (Z.eqb_spec n 0) as [->|_]; [now contradiction Hh|].
    destruct (Z.eqb_spec (n mod 3600) 0); [contradiction|].
    now rewrite Hm. }
  split.
  { intros n Hm. rewrite format_number.
    destruct (Z.eqb_spec n 0) as [->|_]; [now contradiction Hm|].
    destruct (Z.eqb_spec (n mod 3600) 0) as [Hh|_].
    - exfalso. apply Hm.
      apply Z.mod_divide; [lia|]. apply Z.mod_divide in Hh; [|lia].
      destruct Hh as [c ->]. exists (c * 60). lia.
    - destruct (Z.eqb_spec (n mod 60) 0); [contradiction|reflexivity]. }
  repeat split; reflexivity.
Qed.

End DurationFormatter.

(** Sample inputs of each kind, with [int] reading plain decimal numerals. *)
Lemma seconds_to_human_cases_witness :
  datadog_synthetics_export.format_seconds_to_human SyntheticsSpec.decimal
    (Py.JStr "soon") = Py.Return "N/A"%string /\
  datadog_synthetics_export.format_seconds_to_human SyntheticsSpec.decimal
    (Py.JList [Py.JNum 60%Z]) = Py.Return "N/A"%string /\
  datadog_synthetics_export.format_seconds_to_human SyntheticsSpec.decimal
    (Py.JNum 10800%Z) = Py.Return "3 hours"%string /\
  datadog_synthetics_export.format_seconds_to_human SyntheticsSpec.decimal
    (Py.JNum 60%Z) = Py.Return "1 minute"%string /\
  datadog_synthetics_export.format_seconds_to_human SyntheticsSpec.decimal
    (Py.JNum 3601%Z) = Py.Return "3601 seconds"%string.
Proof.
  destruct (seconds_to_human_cases SyntheticsSpec.decimal)
    as (_ & Hnon & _ & Hh & Hm & Hs & _).
  split; [|split; [|split; [|split]]].
  - apply Hnon. intros n. discriminate.
  - apply Hnon. intros n. discriminate.
  - apply (Hh 10800%Z); [lia|reflexivity].
  - apply (Hm 60%Z); [discriminate|reflexivity].
  - apply (Hs 3601%Z). discriminate.
Defined.

(** ** The Paginated Fetcher *)

Section PaginatedFetcher.
Import Py datadog_synthetics_export Spec SyntheticsSpec.

Local Open Scope list_scope.

Variable tests_api : Z -> Z -> result response.

(** One turn of the loop on a page that arrives with [items]. *)
Lemma fetch_page_ok (page : Z) (all_tests items : list json) :
  tests_api page page_size = ok (tests_doc items) ->
  fetch_page tests_api page all_tests =
  Return (match items with
          | [] => inl all_tests
          | _ => if (Z.of_nat (length items) <? page_size)%Z
                 then inl (all_tests ++ items)
                 else inr (all_tests ++ items)
          end).
Proof.
  intros H. unfold fetch_page. rewrite H. simpl.
  destruct items as [|x items]; [reflexivity|]. simpl.
  destruct (_ <? _)%Z; reflexivity.
Qed.

(** The loop from page [start] on: full pages, then a short one. *)
Lemma fetch_loop_pages (full : list (list json)) :
  forall (last : list json) (start : nat) (all_tests : list json) (fuel : nat),
  Forall (fun p => (page_size <= Z.of_nat (length p))%Z) full ->
  (Z.of_nat (length last) < page_size)%Z ->
  (forall i, (i <= length full)%nat ->
     tests_api (Z.of_nat (start + i)) page_size =
     ok (tests_doc (nth i (full ++ [last]) []))) ->
  (length full < fuel)%nat ->
  fetch_loop tests_api fuel (Z.of_nat start) all_tests =
  Some (map (fun i => (Z.of_nat i, page_size)) (seq start (S (length full))),
        Return (all_tests ++ concat (full ++ [last]))).
Proof.
  induction full as [|p full IH]; intros last start all_tests fuel Hfull Hlast
    Hapi Hfuel; (destruct fuel as [|fuel]; [simpl in Hfuel; lia|]).
  - specialize (Hapi 0%nat (Nat.le_refl _)).
    rewrite Nat.add_0_r in Hapi. simpl in Hapi.
    simpl. rewrite (fetch_page_ok _ _ _ Hapi).
    destruct last as [|x last].
    + simpl. now rewrite app_nil_r.
    + destruct (Z.ltb_spec (Z.of_nat (length (x :: last))) page_size);
        [|lia]. simpl concat. now rewrite app_nil_r.
  - inversion Hfull as [|? ? Hp Hfull']; subst.
    pose proof (Hapi 0%nat (Nat.le_0_l _)) as H0.
    rewrite Nat.add_0_r in H0. simpl in H0.
    cbn [fetch_loop]. rewrite (fetch_page_ok _ _ _ H0).
    destruct p as [|x p]; [simpl in Hp; unfold page_size in Hp; lia|].
    destruct (Z.ltb_spec (Z.of_nat (length (x :: p))) page_size); [lia|].
    replace (Z.of_nat start + 1)%Z with (Z.of_nat (S start)) by lia.
    rewrite (IH last (S start) (all_tests ++ x :: p) fuel Hfull' Hlast).
    + cbn [length seq map app concat]. now rewrite <- app_assoc.
    + intros i Hi. specialize (Hapi (S i)).
      replace (S start + i)%nat with (start + S i)%nat by lia.
      apply Hapi. simpl. lia.
    + simpl in Hfuel. lia.
Qed.

End PaginatedFetcher.

(** C8. The fetcher asks for page 0, then 1, and so on, each time with
    [page_size] 100; it goes on while the page it got holds at least 100
    items and stops at the first page that holds fewer (none included),
    after adding that page's items to the result. On pages of sizes
    100, 100, 37 it sends 3 requests and returns the 237 items; on pages of
    sizes 100, 100, 100, 0 it sends 4 requests and returns the 300 items. *)
Theorem paginated_fetch :
  (forall tests_api full last fuel,
     Forall (fun p => (100 <= Z.of_nat (length p))%Z) full ->
     (Z.of_nat (length last) < 100)%Z ->
     (forall i, (i <= length full)%nat ->
        tests_api (Z.of_nat i) 100%Z =
        Spec.ok (SyntheticsSpec.tests_doc (nth i (full ++ [last]) []))) ->
     (length full < fuel)%nat ->
     datadog_synthetics_export.get_synthetic_tests tests_api fuel =
     Some (SyntheticsSpec.requests (S (length full)),
           Py.Return (concat (full ++ [last])))) /\
  (forall a b c : list Py.json,
     length a = 100%nat -> length b = 100%nat -> length c = 37%nat ->
     datadog_synthetics_export.get_synthetic_tests
       (SyntheticsSpec.serve [a; b; c]) 3 =
     Some ([(0, 100); (1, 100); (2, 100)]%Z, Py.Return (a ++ b ++ c)%list) /\
     length (a ++ b ++ c)%list = 237%nat) /\
  (forall a b c : list Py.json,
     length a = 100%nat -> length b = 100%nat -> length c = 100%nat ->
     datadog_synthetics_export.get_synthetic_tests
       (SyntheticsSpec.serve [a; b; c; []]) 4 =
     Some ([(0, 100); (1, 100); (2, 100); (3, 100)]%Z,
           Py.Return (a ++ b ++ c)%list) /\
     length (a ++ b ++ c)%list = 300%nat).
Proof.
  assert (General : forall tests_api full last fuel,
     Forall (fun p => (100 <= Z.of_nat (length p))%Z) full ->
     (Z.of_nat (length last) < 100)%Z ->
     (forall i, (i <= length full)%nat ->
        tests_api (Z.of_nat i) 100%Z =
        Spec.ok (SyntheticsSpec.tests_doc (nth i (full ++ [last]) []))) ->
     (length full < fuel)%nat ->
     datadog_synthetics_export.get_synthetic_tests tests_api fuel =
     Some (SyntheticsSpec.requests (S (length full)),
           Py.Return (concat (full ++ [last])))).
  { intros tests_api full last fuel Hfull Hlast Hapi Hfuel.
    unfold datadog_synthetics_export.get_synthetic_tests.
    exact (fetch_loop_pages tests_api full last 0 [] fuel Hfull Hlast Hapi
             Hfuel). }
  split; [exact General|]. split.
  - intros a b c Ha Hb Hc. split; [|rewrite !length_app; lia].
    rewrite (General (SyntheticsSpec.serve [a; b; c]) [a; b] c 3%nat).
    + simpl. now rewrite app_nil_r.
    + repeat constructor; lia.
    + lia.
    + intros i Hi. simpl in Hi.
      destruct i as [|[|[|i]]]; [reflexivity..|lia].
    + simpl. lia.
  - intros a b c Ha Hb Hc. split; [|rewrite !length_app; lia].
    rewrite (General (SyntheticsSpec.serve [a; b; c; []]) [a; b; c] [] 4%nat).
    + simpl. now rewrite !app_nil_r.
    + repeat constructor; lia.
    + simpl. lia.
    + intros i Hi. simpl in Hi.
      destruct i as [|[|[|[|i]]]]; [reflexivity..|lia].
    + simpl. lia.
Qed.

(** Three pages of 100, 100 and 37 empty records. *)
Lemma paginated_fetch_witness :
  datadog_synthetics_export.get_synthetic_tests
    (SyntheticsSpec.serve
       [repeat (Py.JDict []) 100; repeat (Py.JDict []) 100;
        repeat (Py.JDict []) 37]) 3 =
  Some ([(0, 100); (1, 100); (2, 100)]%Z,
        Py.Return (repeat (Py.JDict []) 100 ++ repeat (Py.JDict []) 100 ++
                   repeat (Py.JDict []) 37)%list).
Proof.
  apply (proj1 (proj2 paginated_fetch)); apply repeat_length.
Defined.

(** ** The Record Normalizer *)

Section RecordNormalizer.
Import Py datadog_synthetics_export Spec SyntheticsSpec.

Local Open Scope list_scope.

Variable int_of_str : string -> option Z.

Abbreviation normalize := (process_test int_of_str).

Lemma get_dict (kvs : list (string * json)) (k : string) (default : json) :
  get (JDict kvs) k default = Return (field_or kvs k default).
Proof. unfold get, field_or. destruct (lookup k kvs); reflexivity. Qed.

Lemma wf_timeframe_inv (kvs : list (string * json)) :
  wf_timeframe (JDict kvs) = true ->
  optional kvs "day" is_num = true /\ optional kvs "from" is_str = true /\
  optional kvs "to" is_str = true.
Proof. simpl. rewrite !andb_true_iff. tauto. Qed.

Lemma wf_scheduling_inv (kvs : list (string * json)) :
  wf_scheduling (JDict kvs) = true ->
  optional kvs "timezone" is_str = true /\
  optional kvs "timeframes"
    (fun v => match v with
              | JList l => forallb wf_timeframe l
              | _ => false
              end) = true.
Proof. simpl. rewrite !andb_true_iff. tauto. Qed.

Lemma wf_options_inv (kvs : list (string * json)) :
  wf_options (JDict kvs) = true ->
  optional kvs "tick_every" is_num = true /\
  optional kvs "device_ids" is_str_list = true /\
  optional kvs "scheduling" wf_scheduling = true.
Proof. simpl. rewrite !andb_true_iff. tauto. Qed.

Lemma wf_test_inv (kvs : list (string * json)) :
  wf_test (JDict kvs) = true ->
  optional kvs "type" is_str = true /\
  optional kvs "status" is_str = true /\
  optional kvs "steps" is_list = true /\
  optional kvs "locations" is_str_list = true /\
  optional kvs "tags" is_str_list = true /\
  if_present kvs "options" wf_options = true.
Proof. simpl. rewrite !andb_true_iff. tauto. Qed.

Lemma optional_cases (kvs : list (string * json)) (k : string)
    (ok : json -> bool) (default : json) :
  optional kvs k ok = true ->
  field_or kvs k default = default \/ field_or kvs k default = JNull \/
  ok (field_or kvs k default) = true.
Proof.
  unfold optional, field_or. destruct (lookup k kvs) as [v|]; [|auto].
  intros [Hn|Hok]%orb_true_iff; [|auto].
  destruct v; try discriminate. auto.
Qed.

Lemma mapM_strs (l : list json) :
  forallb is_str l = true ->
  exists parts,
    mapM (fun x => match x with
                   | JStr s => Return s
                   | _ => Raise TypeError
                   end) l = Return parts.
Proof.
  induction l as [|x l IH]; simpl; [eauto|]. intros H.
  apply andb_true_iff in H as [Hx Hl]. destruct x; try discriminate.
  destruct (IH Hl) as [parts ->]. simpl. eauto.
Qed.

(** A list field that is missing, null or a list of strings. *)
Lemma joined_field (kvs : list (string * json)) (k : string) :
  optional kvs k is_str_list = true ->
  exists s,
    (if truthy (field_or kvs k (JList []))
     then join_value ", " (field_or kvs k (JList []))
     else Return "N/A"%string) = Return s.
Proof.
  intros H. destruct (optional_cases _ _ _ (JList []) H) as [->|[->|Hl]];
    [simpl; eauto..|].
  destruct (field_or kvs k (JList [])) as [| | | |l|]; try discriminate.
  destruct (truthy (JList l)); [|eauto].
  unfold join_value. simpl. destruct (mapM_strs l Hl) as [parts ->].
  simpl. eauto.
Qed.

Lemma day_label_wf (kvs : list (string * json)) :
  optional kvs "day" is_num = true ->
  exists label, day_label (field_or kvs "day" JNull) = Return label.
Proof.
  intros H. destruct (optional_cases _ _ _ JNull H) as [->|[->|Hd]];
    [simpl; eauto..|].
  destruct (field_or kvs "day" JNull); try discriminate. simpl. eauto.
Qed.

Lemma windows_of_wf (timeframes : list json) :
  forallb wf_timeframe timeframes = true ->
  exists windows, windows_of timeframes = Return windows.
Proof.
  induction timeframes as [|tf rest IH]; [simpl; eauto|]. intros H.
  apply andb_true_iff in H as [Htf Hrest].
  destruct (IH Hrest) as [ws Hws].
  destruct tf as [| | | | |kvs]; try discriminate.
  apply wf_timeframe_inv in Htf as (Hday & _ & _).
  cbn [windows_of]. rewrite !get_dict. cbn [bind].
  destruct (day_label_wf kvs Hday) as [label ->]. cbn [bind].
  rewrite Hws. cbn [bind]. eauto.
Qed.

Lemma wf_options_default (kvs : list (string * json)) :
  if_present kvs "options" wf_options = true ->
  exists okvs,
    field_or kvs "options" (JDict []) = JDict okvs /\
    wf_options (JDict okvs) = true.
Proof.
  unfold if_present, field_or. destruct (lookup "options" kvs) as [o|].
  - destruct o; try discriminate. eauto.
  - eauto.
Qed.

Lemma extract_schedule_wf (kvs : list (string * json)) :
  if_present kvs "options" wf_options = true ->
  exists sch, extract_schedule (JDict kvs) = Return sch.
Proof.
  intros H. destruct (wf_options_default kvs H) as (okvs & Eo & Ho).
  unfold extract_schedule. rewrite get_dict, Eo. cbn [bind].
  rewrite get_dict. cbn [bind].
  apply wf_options_inv in Ho as (_ & _ & Hsched).
  assert (Hs : exists skvs,
             or_else (field_or okvs "scheduling" (JDict [])) (JDict []) =
             JDict skvs /\ wf_scheduling (JDict skvs) = true).
  { destruct (optional_cases _ _ _ (JDict []) Hsched) as [->|[->|Hsc]];
      [exists []; split; reflexivity..|].
    destruct (field_or okvs "scheduling" (JDict [])) as [| | | | |skvs];
      try discriminate.
    destruct skvs; [exists []; split; reflexivity|].
    eexists; split; [reflexivity|exact Hsc]. }
  destruct Hs as (skvs & -> & Hs).
  apply wf_scheduling_inv in Hs as (_ & Hframes).
  rewrite !get_dict. cbn [bind].
  assert (Ht : exists l,
             or_else (field_or skvs "timeframes" JNull) (JList []) = JList l /\
             forallb wf_timeframe l = true).
  { destruct (optional_cases _ _ _ JNull Hframes) as [->|[->|Htf]];
      [exists []; split; reflexivity..|].
    destruct (field_or skvs "timeframes" JNull) as [| | | |l|];
      try discriminate.
    destruct l; [exists []; split; reflexivity|].
    eexists; split; [reflexivity|exact Htf]. }
  destruct Ht as (l & -> & Hl). cbn [iter bind].
  destruct (windows_of_wf l Hl) as [ws ->]. cbn [bind]. eauto.
Qed.

Lemma extract_subtype_wf (kvs : list (string * json)) (test_type : string) :
  optional kvs "steps" is_list = true ->
  exists st, extract_subtype (JDict kvs) test_type = Return st.
Proof.
  intros H. unfold extract_subtype. rewrite !get_dict. cbn [bind].
  destruct (String.eqb test_type "api"); [eauto|].
  destruct (_ || _)%bool; [|eauto].
  destruct (optional_cases _ _ _ (JList []) H) as [->|[->|Hl]];
    [simpl; eauto..|].
  destruct (field_or kvs "steps" (JList [])); try discriminate.
  destruct (truthy _); [|eauto]. cbn [len bind].
  destruct (1 <? _)%Z; eauto.
Qed.

Lemma get_status_wf (kvs : list (string * json)) :
  optional kvs "status" is_str = true ->
  exists st, get_status (JDict kvs) = Return st.
Proof.
  intros H. unfold get_status. rewrite get_dict. cbn [bind].
  destruct (optional_cases _ _ _ JNull H) as [->|[->|Hs]];
    [simpl; eauto..|].
  destruct (field_or kvs "status" JNull); try discriminate.
  destruct (truthy _); simpl; eauto.
Qed.

Lemma extract_frequency_wf (kvs : list (string * json)) (test_type : string) :
  if_present kvs "options" wf_options = true ->
  exists f, extract_frequency int_of_str (JDict kvs) test_type = Return f.
Proof.
  intros H. destruct (wf_options_default kvs H) as (okvs & Eo & Ho).
  unfold extract_frequency. rewrite get_dict, Eo. cbn [bind].
  rewrite get_dict. cbn [bind]. apply format_total.
Qed.

Lemma extract_device_ids_wf (kvs : list (string * json)) :
  if_present kvs "options" wf_options = true ->
  exists d, extract_device_ids (JDict kvs) = Return d.
Proof.
  intros H. destruct (wf_options_default kvs H) as (okvs & Eo & Ho).
  unfold extract_device_ids. rewrite get_dict, Eo. cbn [bind].
  rewrite get_dict. cbn [bind].
  apply wf_options_inv in Ho as (_ & Hdev & _).
  apply joined_field. exact Hdev.
Qed.

Lemma extract_monitor_id_total (kvs : list (string * json)) :
  exists m, extract_monitor_id (JDict kvs) = Return m.
Proof.
  unfold extract_monitor_id. rewrite get_dict. cbn [bind].
  destruct (field_or kvs "monitor_id" JNull); eauto.
Qed.

Lemma test_type_wf (kvs : list (string * json)) :
  optional kvs "type" is_str = true ->
  exists ty,
    lower_value (or_else (field_or kvs "type" JNull) (JStr "")) = Return ty.
Proof.
  intros H. destruct (optional_cases _ _ _ JNull H) as [->|[->|Hs]];
    [simpl; eauto..|].
  destruct (field_or kvs "type" JNull); try discriminate.
  unfold or_else. destruct (truthy _); simpl; eauto.
Qed.

Lemma process_test_wf (test : json) :
  wf_test test = true -> exists r, normalize test = Return r.
Proof.
  destruct test as [| | | | |kvs]; try discriminate.
  intros (Htype & Hstatus & Hsteps & Hlocs & Htags & Hopts)%wf_test_inv.
  unfold process_test. rewrite !get_dict. cbn [bind].
  destruct (test_type_wf kvs Htype) as [ty ->]. cbn [bind].
  destruct (extract_schedule_wf kvs Hopts) as [sch ->]. cbn [bind].
  destruct (extract_subtype_wf kvs ty Hsteps) as [st ->]. cbn [bind].
  destruct (get_status_wf kvs Hstatus) as [status ->]. cbn [bind].
  destruct (extract_frequency_wf kvs ty Hopts) as [f ->]. cbn [bind].
  unfold extract_locations. rewrite get_dict. cbn [bind].
  destruct (joined_field kvs "locations" Hlocs) as [locs ->]. cbn [bind].
  destruct (extract_monitor_id_total kvs) as [mid ->]. cbn [bind].
  destruct (extract_device_ids_wf kvs Hopts) as [dev ->]. cbn [bind].
  unfold extract_tags. rewrite get_dict. cbn [bind].
  destruct (joined_field kvs "tags" Htags) as [tags ->]. cbn [bind].
  eauto.
Qed.

Lemma process_synthetic_tests_wf (tests : list json) :
  forallb wf_test tests = true ->
  exists rows,
    process_synthetic_tests int_of_str tests = Return rows /\
    length rows = length tests.
Proof.
  unfold process_synthetic_tests.
  induction tests as [|test tests IH]; intros H; [simpl; eauto|].
  apply andb_true_iff in H as [Htest Htests].
  destruct (process_test_wf test Htest) as [r Hr].
  destruct (IH Htests) as (rows & Hrows & Hlen).
  cbn [mapM]. rewrite Hr. cbn [bind]. rewrite Hrows. cbn [bind].
  exists (r :: rows). split; [reflexivity|]. simpl. now rewrite Hlen.
Qed.

(** *** Defaults, extractor by extractor *)

Lemma subtype_default_api kvs :
  lookup "subtype" kvs = None ->
  extract_subtype (JDict kvs) "api" = Return (JStr "N/A").
Proof. intros H. unfold extract_subtype. simpl. now rewrite H. Qed.

Lemma subtype_default_steps kvs test_type :
  test_type <> "api"%string -> lookup "steps" kvs = None ->
  extract_subtype (JDict kvs) test_type = Return (JStr "N/A").
Proof.
  intros Hty H. unfold extract_subtype.
  destruct (String.eqb_spec test_type "api"); [contradiction|].
  simpl. rewrite H. simpl. destruct (_ || _)%bool; reflexivity.
Qed.

Lemma status_default kvs :
  lookup "status" kvs = None -> get_status (JDict kvs) = Return "N/A"%string.
Proof. intros H. unfold get_status. simpl. now rewrite H. Qed.

Lemma frequency_default kvs okvs test_type :
  options_of kvs = JDict okvs -> lookup "tick_every" okvs = None ->
  extract_frequency int_of_str (JDict kvs) test_type = Return "N/A"%string.
Proof.
  intros Ho H. unfold extract_frequency. rewrite get_dict.
  fold (options_of kvs). rewrite Ho. cbn [bind]. rewrite get_dict.
  unfold field_or. rewrite H. reflexivity.
Qed.

Lemma device_ids_default kvs okvs :
  options_of kvs = JDict okvs -> lookup "device_ids" okvs = None ->
  extract_device_ids (JDict kvs) = Return "N/A"%string.
Proof.
  intros Ho H. unfold extract_device_ids. rewrite get_dict.
  fold (options_of kvs). rewrite Ho. cbn [bind]. rewrite get_dict.
  unfold field_or. rewrite H. reflexivity.
Qed.

(** The schedule of a record, read from its scheduling. *)
Lemma extract_schedule_scheduling kvs okvs skvs :
  options_of kvs = JDict okvs -> scheduling_of okvs = JDict skvs ->
  extract_schedule (JDict kvs) =
  (items <- iter (or_else (field_or skvs "timeframes" JNull) (JList [])) ;;
   windows <- windows_of items ;;
   Return (mkSchedule
             (or_else (field_or skvs "timezone" JNull) (JStr "N/A"))
             (match windows with
              | [] => "N/A"%string
              | _ => join "; " windows
              end))).
Proof.
  intros Ho Hs. unfold extract_schedule. rewrite get_dict.
  fold (options_of kvs). rewrite Ho. cbn [bind]. rewrite get_dict.
  cbn [bind]. fold (scheduling_of okvs). rewrite Hs.
  rewrite !get_dict. reflexivity.
Qed.

Lemma windows_default kvs okvs skvs :
  options_of kvs = JDict okvs -> scheduling_of okvs = JDict skvs ->
  lookup "timeframes" skvs = None ->
  extract_schedule (JDict kvs) =
  Return (mkSchedule (or_else (field_or skvs "timezone" JNull) (JStr "N/A"))
            "N/A").
Proof.
  intros Ho Hs H. rewrite (extract_schedule_scheduling _ _ _ Ho Hs).
  unfold field_or at 1. rewrite H. reflexivity.
Qed.

Lemma timezone_default kvs okvs skvs sch :
  options_of kvs = JDict okvs -> scheduling_of okvs = JDict skvs ->
  lookup "timezone" skvs = None ->
  extract_schedule (JDict kvs) = Return sch ->
  schedule_timezone sch = JStr "N/A".
Proof.
  intros Ho Hs H. rewrite (extract_schedule_scheduling _ _ _ Ho Hs).
  destruct (iter _) as [items|]; cbn [bind]; [|discriminate].
  destruct (windows_of items) as [ws|]; cbn [bind]; [|discriminate].
  intros [= <-]. unfold field_or. rewrite H. reflexivity.
Qed.

Lemma locations_default kvs :
  lookup "locations" kvs = None ->
  extract_locations (JDict kvs) = Return "N/A"%string.
Proof. intros H. unfold extract_locations. simpl. now rewrite H. Qed.

Lemma monitor_id_default kvs :
  lookup "monitor_id" kvs = None ->
  extract_monitor_id (JDict kvs) = Return "N/A"%string.
Proof. intros H. unfold extract_monitor_id. simpl. now rewrite H. Qed.

Lemma tags_default kvs :
  lookup "tags" kvs = None -> extract_tags (JDict kvs) = Return "N/A"%string.
Proof. intros H. unfold extract_tags. simpl. now rewrite H. Qed.

(** *** Defaults in the row *)

(** A row is made of what the extractors return, each on its own. *)
Lemma process_test_inv kvs r :
  normalize (JDict kvs) = Return r ->
  exists test_type sch,
    lower_value (or_else (field_or kvs "type" JNull) (JStr "")) =
      Return test_type /\
    extract_schedule (JDict kvs) = Return sch /\
    extract_subtype (JDict kvs) test_type = Return (row_subtype r) /\
    get_status (JDict kvs) = Return (row_status r) /\
    extract_frequency int_of_str (JDict kvs) test_type =
      Return (row_frequency r) /\
    extract_locations (JDict kvs) = Return (row_locations r) /\
    extract_monitor_id (JDict kvs) = Return (row_monitor_id r) /\
    extract_device_ids (JDict kvs) = Return (row_device_ids r) /\
    extract_tags (JDict kvs) = Return (row_tags r) /\
    row_public_id r = field_or kvs "public_id" (JStr "N/A") /\
    row_name r = field_or kvs "name" (JStr "N/A") /\
    row_type r = test_type /\
    row_schedule_timezone r = schedule_timezone sch /\
    row_schedule_windows r = schedule_windows sch.
Proof.
  unfold process_test. rewrite !get_dict. cbn [bind].
  destruct (lower_value _) as [ty|] eqn:Ety; cbn [bind]; [|discriminate].
  destruct (extract_schedule _) as [sch|] eqn:Esch; cbn [bind];
    [|discriminate].
  destruct (extract_subtype _ ty) as [st|] eqn:Est; cbn [bind];
    [|discriminate].
  destruct (get_status _) as [status|] eqn:Estatus; cbn [bind];
    [|discriminate].
  destruct (extract_frequency _ _ ty) as [f|] eqn:Ef; cbn [bind];
    [|discriminate].
  destruct (extract_locations _) as [locs|] eqn:El; cbn [bind];
    [|discriminate].
  destruct (extract_monitor_id _) as [mid|] eqn:Em; cbn [bind];
    [|discriminate].
  destruct (extract_device_ids _) as [dev|] eqn:Ed; cbn [bind];
    [|discriminate].
  destruct (extract_tags _) as [tags|] eqn:Et; cbn [bind]; [|discriminate].
  intros [= <-]. exists ty, sch. cbn. repeat split; assumption.
Qed.

Lemma process_test_defaults kvs r :
  normalize (JDict kvs) = Return r -> defaults_hold kvs r.
Proof.
  intros (ty & sch & Hty & Hsch & Hsub & Hst & Hf & Hl & Hm & Hd & Ht &
          Hpid & Hname & Htype & Htz & Hw)%process_test_inv.
  unfold defaults_hold.
  split; [intros H; rewrite Hpid; unfold field_or; now rewrite H|].
  split; [intros H; rewrite Hname; unfold field_or; now rewrite H|].
  split.
  { intros H. rewrite Htype. unfold field_or in Hty. rewrite H in Hty.
    simpl in Hty. now injection Hty as <-. }
  split.
  { intros H Hapi. rewrite Htype in Hapi. rewrite Hapi in Hsub.
    rewrite (subtype_default_api _ H) in Hsub. now injection Hsub as <-. }
  split.
  { intros H Hapi. rewrite Htype in Hapi.
    rewrite (subtype_default_steps _ _ Hapi H) in Hsub.
    now injection Hsub as <-. }
  split.
  { intros H. rewrite (status_default _ H) in Hst. now injection Hst as <-. }
  split.
  { intros H. rewrite (locations_default _ H) in Hl. now injection Hl as <-. }
  split.
  { intros H. rewrite (monitor_id_default _ H) in Hm.
    now injection Hm as <-. }
  split.
  { intros H. rewrite (tags_default _ H) in Ht. now injection Ht as <-. }
  intros okvs Ho. split.
  { intros H. rewrite (frequency_default _ _ _ Ho H) in Hf.
    now injection Hf as <-. }
  split.
  { intros H. rewrite (device_ids_default _ _ Ho H) in Hd.
    now injection Hd as <-. }
  intros skvs Hs. split.
  - intros H. rewrite Htz. exact (timezone_default _ _ _ _ Ho Hs H Hsch).
  - intros H. rewrite Hw. rewrite (windows_default _ _ _ Ho Hs H) in Hsch.
    now injection Hsch as <-.
Qed.

Lemma process_synthetic_tests_defaults (tests : list json) :
  forallb wf_test tests = true ->
  exists rows,
    process_synthetic_tests int_of_str tests = Return rows /\
    length rows = length tests /\
    Forall2 (fun test r => forall kvs, test = JDict kvs -> defaults_hold kvs r)
      tests rows.
Proof.
  unfold process_synthetic_tests.
  induction tests as [|test tests IH]; intros H.
  - exists []. repeat split. constructor.
  - apply andb_true_iff in H as [Htest Htests].
    destruct (process_test_wf test Htest) as [r Hr].
    destruct (IH Htests) as (rows & Hrows & Hlen & Hall).
    cbn [mapM]. rewrite Hr. cbn [bind]. rewrite Hrows. cbn [bind].
    exists (r :: rows). split; [reflexivity|].
    split; [simpl; now rewrite Hlen|]. constructor; [|exact Hall].
    intros kvs ->. now apply process_test_defaults.
Qed.

(** C9 (amended). On records whose fields, where present, have the
    documented types, normalization raises nothing and gives one row per
    record, whichever fields are missing, and in each row every column
    whose field is missing holds its default, whatever the other fields
    are; that holds of every row the normalizer returns at all. The record
    with no field gives the row of defaults, and each extractor on its own
    gives ["N/A"] when its field is missing, the options being there or
    not. *)
Theorem normalizer_total_on_well_formed :
  (forall tests, forallb wf_test tests = true ->
     exists rows,
       process_synthetic_tests int_of_str tests = Return rows /\
       length rows = length tests /\
       Forall2 (fun test r =>
                  forall kvs, test = JDict kvs -> defaults_hold kvs r)
         tests rows) /\
  (forall kvs r,
     process_test int_of_str (JDict kvs) = Return r -> defaults_hold kvs r) /\
  process_synthetic_tests int_of_str [JDict []] = Return [default_row] /\
  (forall kvs, lookup "subtype" kvs = None ->
     extract_subtype (JDict kvs) "api" = Return (JStr "N/A")) /\
  (forall kvs test_type,
     test_type <> "api"%string -> lookup "steps" kvs = None ->
     extract_subtype (JDict kvs) test_type = Return (JStr "N/A")) /\
  (forall kvs, lookup "status" kvs = None ->
     get_status (JDict kvs) = Return "N/A"%string) /\
  (forall kvs okvs test_type,
     options_of kvs = JDict okvs -> lookup "tick_every" okvs = None ->
     extract_frequency int_of_str (JDict kvs) test_type =
     Return "N/A"%string) /\
  (forall kvs okvs skvs,
     options_of kvs = JDict okvs -> scheduling_of okvs = JDict skvs ->
     lookup "timeframes" skvs = None ->
     extract_schedule (JDict kvs) =
     Return (mkSchedule
               (or_else (field_or skvs "timezone" JNull) (JStr "N/A"))
               "N/A")) /\
  (forall kvs okvs skvs sch,
     options_of kvs = JDict okvs -> scheduling_of okvs = JDict skvs ->
     lookup "timezone" skvs = None ->
     extract_schedule (JDict kvs) = Return sch ->
     schedule_timezone sch = JStr "N/A") /\
  (forall kvs, lookup "locations" kvs = None ->
     extract_locations (JDict kvs) = Return "N/A"%string) /\
  (forall kvs, lookup "monitor_id" kvs = None ->
     extract_monitor_id (JDict kvs) = Return "N/A"%string) /\
  (forall kvs okvs,
     options_of kvs = JDict okvs -> lookup "device_ids" okvs = None ->
     extract_device_ids (JDict kvs) = Return "N/A"%string) /\
  (forall kvs, lookup "tags" kvs = None ->
     extract_tags (JDict kvs) = Return "N/A"%string).
Proof.
  split; [exact process_synthetic_tests_defaults|].
  split; [exact process_test_defaults|].
  split; [reflexivity|].
  split; [exact subtype_default_api|].
  split; [exact subtype_default_steps|].
  split; [exact status_default|].
  split; [exact frequency_default|].
  split; [exact windows_default|].
  split; [exact timezone_default|].
  split; [exact locations_default|].
  split; [exact monitor_id_default|].
  split; [exact device_ids_default|].
  exact tags_default.
Qed.

End RecordNormalizer.

Section NormalizerSamples.
Import Py datadog_synthetics_export Spec SyntheticsSpec.

Local Open Scope list_scope.

(** C9, as stated, fails. A record whose [tags] are numbers makes
    [", ".join(tags)] raise: the tag extractor does not fall back to
    ["N/A"], and the normalization of the listing raises with it. *)
Lemma malformed_tags_raise :
  extract_tags (JDict [("tags", JList [JNum 1; JNum 2])]) = Raise TypeError /\
  process_synthetic_tests decimal
    [ JDict [ ("public_id", JStr "abc-123"); ("type", JStr "api");
              ("tags", JList [JNum 1; JNum 2]) ] ] = Raise TypeError.
Proof. split; reflexivity. Qed.

(** The sample listing: three rows, each with its defaults. *)
Lemma normalizer_total_on_well_formed_witness :
  exists rows,
    process_synthetic_tests decimal sample_listing = Return rows /\
    length rows = length sample_listing /\
    Forall2 (fun test r =>
               forall kvs, test = JDict kvs -> defaults_hold kvs r)
      sample_listing rows.
Proof.
  apply (proj1 (normalizer_total_on_well_formed decimal)). reflexivity.
Defined.

(** The rows of that listing: the second record has options but no
    [tick_every], no [scheduling] and no [steps]. *)
Example sample_listing_rows :
  process_synthetic_tests decimal sample_listing =
  Return
    [ mkRow (JStr "N/A") (JStr "N/A") "browser" (JStr "multistep") "N/A"
        "5 minutes" "N/A" "N/A" "N/A" "N/A" (JStr "N/A") "Mon 06:00-20:00";
      mkRow (JStr "N/A") (JStr "N/A") "browser" (JStr "N/A") "N/A" "N/A"
        "N/A" "N/A" "chrome.laptop_large" "N/A" (JStr "N/A") "N/A";
      default_row ].
Proof. reflexivity. Qed.

(** The rows of the sample listing. *)
Example normalize_samples :
  process_synthetic_tests decimal
    [ JDict [ ("type", JStr "Browser");
              ("steps", JList [JDict []; JDict []; JDict []]);
              ("options",
               JDict [ ("tick_every", JNum 300);
                       ("scheduling",
                        JDict [ ("timeframes",
                                 JList [ JDict [ ("day", JNum 1);
                                                 ("from", JStr "06:00");
                                                 ("to", JStr "20:00") ] ])
                              ]) ]) ];
      JDict [("type", JStr "api")] ] =
  Return
    [ mkRow (JStr "N/A") (JStr "N/A") "browser" (JStr "multistep") "N/A"
        "5 minutes" "N/A" "N/A" "N/A" "N/A" (JStr "N/A") "Mon 06:00-20:00";
      mkRow (JStr "N/A") (JStr "N/A") "api" (JStr "N/A") "N/A" "N/A" "N/A"
        "N/A" "N/A" "N/A" (JStr "N/A") "N/A" ].
Proof. reflexivity. Qed.

End NormalizerSamples.

(** ** Further properties: the resolver *)

Section HandleText.
Import Py GE_Alerts_extract Spec Behaviour.

Local Open Scope list_scope.

Lemma chars_of_chars (l : list ascii) : chars (of_chars l) = l.
Proof. apply list_ascii_of_string_of_list_ascii. Qed.

Lemma of_chars_chars (s : string) : of_chars (chars s) = s.
Proof. apply string_of_list_ascii_of_string. Qed.

Lemma is_space_lower (c : ascii) : is_space (lower_char c) = is_space c.
Proof. destruct c as [[] [] [] [] [] [] [] []]; reflexivity. Qed.

Lemma lower_char_twice (c : ascii) : lower_char (lower_char c) = lower_char c.
Proof. destruct c as [[] [] [] [] [] [] [] []]; reflexivity. Qed.

Lemma lstrip_map (f : ascii -> ascii) (l : list ascii) :
  (forall c, is_space (f c) = is_space c) ->
  lstrip_chars (map f l) = map f (lstrip_chars l).
Proof.
  intros Hf. induction l as [|c l IH]; [reflexivity|].
  simpl. rewrite Hf. destruct (is_space c); [exact IH|reflexivity].
Qed.

(** Lower-casing and stripping commute. *)
Lemma lower_strip (s : string) : lower (strip s) = strip (lower s).
Proof.
  unfold lower, strip. rewrite !chars_of_chars.
  rewrite map_rev, <- lstrip_map by apply is_space_lower.
  rewrite map_rev, <- lstrip_map by apply is_space_lower.
  reflexivity.
Qed.

Lemma lstrip_clean (l : list ascii) :
  starts_clean l = true -> lstrip_chars l = l.
Proof.
  destruct l as [|c l]; [reflexivity|]. simpl.
  destruct (is_space c); [discriminate|reflexivity].
Qed.

Lemma lstrip_starts_clean (l : list ascii) :
  starts_clean (lstrip_chars l) = true.
Proof.
  induction l as [|c l IH]; [reflexivity|]. simpl.
  destruct (is_space c) eqn:E; [exact IH|]. simpl. now rewrite E.
Qed.

(** Dropping white space from the front of [l ++ [c]] keeps the final [c]
    when [c] is no white space. *)
Lemma lstrip_snoc (l : list ascii) (c : ascii) :
  is_space c = false -> exists l', lstrip_chars (l ++ [c]) = l' ++ [c].
Proof.
  intros Hc. induction l as [|x l IH].
  - exists []. simpl. now rewrite Hc.
  - simpl. destruct (is_space x); [exact IH|].
    exists (x :: l). reflexivity.
Qed.

Lemma strip_trimmed (s : string) : trimmed (strip s) = true.
Proof.
  unfold trimmed, strip. rewrite chars_of_chars, rev_involutive.
  rewrite lstrip_starts_clean, andb_true_r.
  pose proof (lstrip_starts_clean (chars s)) as H.
  destruct (lstrip_chars (chars s)) as [|c l]; [reflexivity|].
  simpl in H. apply negb_true_iff in H.
  simpl rev. destruct (lstrip_snoc (rev l) c H) as [l' ->].
  rewrite rev_app_distr. simpl. now rewrite H.
Qed.

Lemma strip_fixes_trimmed (s : string) : trimmed s = true -> strip s = s.
Proof.
  unfold trimmed, strip. intros [H1 H2]%andb_true_iff.
  rewrite (lstrip_clean _ H1), (lstrip_clean _ H2), rev_involutive.
  apply of_chars_chars.
Qed.

Lemma starts_clean_map (f : ascii -> ascii) (l : list ascii) :
  (forall c, is_space (f c) = is_space c) ->
  starts_clean (map f l) = starts_clean l.
Proof. intros Hf. destruct l; simpl; [reflexivity|now rewrite Hf]. Qed.

Lemma trimmed_map (f : ascii -> ascii) (s : string) :
  (forall c, is_space c = false -> is_space (f c) = false) ->
  trimmed s = true -> trimmed (of_chars (map f (chars s))) = true.
Proof.
  unfold trimmed. intros Hf [H1 H2]%andb_true_iff.
  rewrite chars_of_chars, <- map_rev.
  apply andb_true_iff. split.
  - destruct (chars s) as [|c l]; [reflexivity|]. simpl in *.
    apply negb_true_iff in H1. now rewrite (Hf c H1).
  - destruct (rev (chars s)) as [|c l]; [reflexivity|]. simpl in *.
    apply negb_true_iff in H2. now rewrite (Hf c H2).
Qed.

Lemma lower_twice (s : string) : lower (lower s) = lower s.
Proof.
  unfold lower. rewrite chars_of_chars, map_map. f_equal.
  apply map_ext. apply lower_char_twice.
Qed.

End HandleText.

Section ResolverBehaviour.
Import Py GE_Alerts_extract Spec SyntheticsSpec Behaviour.

Local Open Scope list_scope.

Variable teams_api : string -> result response.
Variable datadog_get : string -> result json.

Abbreviation resolve := (_extract_team_handle teams_api).
Abbreviation list_teams := (_list_teams_by_keyword teams_api).
Abbreviation search := (find_monitors_for_team teams_api datadog_get).

Lemma replace_no_space (l : list ascii) :
  ~ In " "%char
      (map (fun c => if Ascii.eqb c " " then "-"%char else c) l).
Proof.
  intros (c & Hc & _)%in_map_iff.
  destruct (Ascii.eqb_spec c " "); [discriminate|]. now subst.
Qed.

Lemma replace_without_space (s : string) :
  ~ In " "%char (chars s) -> replace " " "-" s = s.
Proof.
  intros H. unfold replace. rewrite <- (of_chars_chars s) at 2. f_equal.
  rewrite <- (map_id (chars s)) at 2. apply map_ext_in.
  intros c Hc. destruct (Ascii.eqb_spec c " "); [now subst|reflexivity].
Qed.

(** The comment in the source: a keyword that already looks like a handle
    is returned as it is. *)
Lemma synthesized_keeps_handle (s : string) :
  trimmed s = true -> ~ In " "%char (chars s) -> lower s = s ->
  synthesized s = s.
Proof.
  intros Ht Hs Hl. unfold synthesized.
  rewrite (strip_fixes_trimmed _ Ht), Hl. now apply replace_without_space.
Qed.

(** The handle made from a keyword has no white space at its ends, no
    space anywhere and no upper-case letter, and making a handle from it
    again changes nothing; a keyword of that form is its own handle. *)
Theorem synthesized_canonical :
  (forall keyword,
     trimmed (synthesized keyword) = true /\
     ~ In " "%char (chars (synthesized keyword)) /\
     lower (synthesized keyword) = synthesized keyword /\
     synthesized (synthesized keyword) = synthesized keyword) /\
  (forall s, trimmed s = true -> ~ In " "%char (chars s) -> lower s = s ->
     synthesized s = s).
Proof.
  split; [|exact synthesized_keeps_handle]. intros keyword.
  assert (Ht : trimmed (synthesized keyword) = true).
  { unfold synthesized, replace. apply trimmed_map.
    - intros c Hc. destruct (Ascii.eqb c " "); [reflexivity|exact Hc].
    - unfold lower. apply trimmed_map; [|apply strip_trimmed].
      intros c Hc. now rewrite is_space_lower. }
  assert (Hs : ~ In " "%char (chars (synthesized keyword))).
  { unfold synthesized, replace. rewrite chars_of_chars.
    apply replace_no_space. }
  assert (Hl : lower (synthesized keyword) = synthesized keyword).
  { unfold synthesized, replace, lower. rewrite !chars_of_chars.
    rewrite !map_map. f_equal. apply map_ext. intros c.
    destruct (Ascii.eqb (lower_char c) " "); [reflexivity|].
    apply lower_char_twice. }
  repeat split; trivial. now apply synthesized_keeps_handle.
Qed.

Lemma exact_match_case (k1 k2 : string) (records : list json) :
  lower k1 = lower k2 ->
  exact_match k1 records = exact_match k2 records.
Proof.
  intros H. induction records as [|t records IH]; [reflexivity|].
  simpl. rewrite H, IH. reflexivity.
Qed.

Lemma synthesized_case (k1 k2 : string) :
  lower k1 = lower k2 -> synthesized k1 = synthesized k2.
Proof.
  intros H. unfold synthesized. now rewrite !lower_strip, H.
Qed.

(** Two keywords that differ only in letter case and get the same answer
    from the lookup resolve to the same handle, or fail alike. *)
Theorem resolve_ignores_case (k1 k2 : string) :
  lower k1 = lower k2 -> teams_api k1 = teams_api k2 ->
  resolve k1 = resolve k2.
Proof.
  intros Hl Ha. unfold _extract_team_handle, _list_teams_by_keyword.
  rewrite Ha, (synthesized_case _ _ Hl).
  destruct (teams_api k2) as [r|]; [|reflexivity]. cbn [bind].
  destruct (raise_for_status r); [|reflexivity]. cbn [bind].
  destruct (body r) as [doc|]; [|reflexivity]. cbn [bind].
  destruct (get doc "data" (JList [])) as [data|]; [|reflexivity]. cbn [bind].
  destruct (negb _); [reflexivity|].
  destruct (iter _) as [items|]; [|reflexivity]. cbn [bind].
  now rewrite (exact_match_case _ _ _ Hl).
Qed.

(** Whatever the lookup answers, a handle the resolver returns is a
    string: a [handle] that is present but is no string makes it raise
    instead. *)
Theorem resolved_handle_is_text (keyword : string) (handle : json) :
  _extract_team_handle teams_api keyword = Return handle ->
  exists s, handle = JStr s.
Proof. apply resolve_str. Qed.

(** A lookup that fails makes the search fail the same way before any
    search request is sent: a transport failure, a response with a status
    from 400 to 599, a body that is no JSON, and a document that is no
    object. *)
Theorem lookup_failure_stops_search (keyword : string) :
  (forall e, teams_api keyword = Raise e ->
     search keyword = ([], Raise e)) /\
  (forall r, teams_api keyword = Return r ->
     (400 <= status r < 600)%Z ->
     search keyword =
     ([], Raise (HTTPError (mkHTTPError (status r) (error_text r))))) /\
  (forall r e, teams_api keyword = Return r ->
     raise_for_status r = Return tt -> body r = Raise e ->
     search keyword = ([], Raise e)) /\
  (forall r doc, teams_api keyword = Return r ->
     raise_for_status r = Return tt -> body r = Return doc ->
     is_dict doc = false ->
     search keyword = ([], Raise AttributeError)).
Proof.
  unfold find_monitors_for_team, _extract_team_handle, _list_teams_by_keyword.
  repeat split.
  - intros e ->. reflexivity.
  - intros r -> [Hlo Hhi]. cbn [bind]. unfold raise_for_status.
    apply Z.leb_le in Hlo. apply Z.ltb_lt in Hhi. rewrite Hlo, Hhi.
    reflexivity.
  - intros r e -> Hs Hb. cbn [bind]. rewrite Hs. cbn [bind]. now rewrite Hb.
  - intros r doc -> Hs Hb Hdoc. cbn [bind]. rewrite Hs. cbn [bind].
    rewrite Hb. destruct doc; try discriminate; reflexivity.
Qed.

(** A lookup whose document has no [data], or a null or empty one, counts
    as no record: the resolver returns the handle made from the keyword. *)
Theorem no_data_synthesized (keyword : string) r kvs :
  teams_api keyword = Return r ->
  raise_for_status r = Return tt ->
  body r = Return (JDict kvs) ->
  truthy (field_or kvs "data" (JList [])) = false ->
  resolve keyword = Return (JStr (synthesized keyword)).
Proof.
  intros Ha Hs Hb Hd.
  unfold _extract_team_handle, _list_teams_by_keyword.
  rewrite Ha. cbn [bind]. rewrite Hs. cbn [bind]. rewrite Hb. cbn [bind].
  rewrite get_dict. cbn [bind]. unfold or_else. rewrite Hd. reflexivity.
Qed.

Lemma lower_empty (s : string) : lower s = ""%string -> s = ""%string.
Proof. destruct s; [reflexivity|discriminate]. Qed.

(** When no record matches and the attributes of the first record have no
    [handle], the resolver returns the handle made from the keyword. *)
Theorem unmatched_first_without_handle keyword kvs attrs name rest views :
  list_teams keyword = Return (JList (JDict kvs :: rest)) ->
  lookup "attributes" kvs = Some (JDict attrs) ->
  lookup "name" attrs = Some (JStr name) ->
  lookup "handle" attrs = None ->
  lower keyword <> lower name -> keyword <> ""%string ->
  map team_view rest = map Some views ->
  find (matches keyword) views = None ->
  resolve keyword = Return (JStr (synthesized keyword)).
Proof.
  intros Hteams Ha Hn Hh Hname Hkey Hviews Hnone.
  assert (E1 : get (JDict kvs) "attributes" (JDict []) = Return (JDict attrs))
    by (simpl; now rewrite Ha).
  assert (E2 : get (JDict attrs) "name" (JStr "") = Return (JStr name))
    by (simpl; now rewrite Hn).
  assert (E3 : forall d, get (JDict attrs) "handle" d = Return d)
    by (intros d; simpl; now rewrite Hh).
  rewrite (resolve_records _ _ _ _ Hteams).
  cbn [exact_match]. rewrite E1. cbn [bind].
  rewrite (lookup_some_truthy _ _ _ Hn), E2. cbn [bind].
  rewrite !E3. cbn [bind lower_value].
  destruct (String.eqb_spec (lower keyword) (lower name)); [contradiction|].
  destruct (String.eqb_spec (lower keyword) (lower ""));
    [now apply lower_empty in e|].
  cbn [orb]. rewrite (exact_match_views _ _ _ Hviews), Hnone.
  reflexivity.
Qed.

(** The scan takes null attributes for empty ones, the fallback does not:
    when no record matches and the attributes of the first record are null,
    the resolver raises [AttributeError]. *)
Theorem unmatched_first_null_attributes keyword kvs rest views :
  list_teams keyword = Return (JList (JDict kvs :: rest)) ->
  lookup "attributes" kvs = Some JNull ->
  keyword <> ""%string ->
  map team_view rest = map Some views ->
  find (matches keyword) views = None ->
  resolve keyword = Raise AttributeError.
Proof.
  intros Hteams Ha Hkey Hviews Hnone.
  assert (E1 : get (JDict kvs) "attributes" (JDict []) = Return JNull)
    by (simpl; now rewrite Ha).
  rewrite (resolve_records _ _ _ _ Hteams).
  cbn [exact_match]. rewrite E1. cbn [bind].
  change (or_else JNull (JDict [])) with (JDict []).
  change (get (JDict []) "name" (JStr "")) with (Return (JStr "")).
  change (get (JDict []) "handle" (JStr "")) with (Return (JStr "")).
  cbn [bind lower_value].
  destruct (String.eqb_spec (lower keyword) (lower ""));
    [now apply lower_empty in e|].
  cbn [orb]. rewrite (exact_match_views _ _ _ Hviews), Hnone.
  reflexivity.
Qed.

End ResolverBehaviour.

(** ** Further properties: the engine *)

Section EngineBehaviour.
Import Py GE_Alerts_extract Spec SyntheticsSpec Behaviour.

Local Open Scope list_scope.

Variable teams_api : string -> result response.
Variable datadog_get : string -> result json.

Abbreviation resolve := (_extract_team_handle teams_api).
Abbreviation search := (find_monitors_for_team teams_api datadog_get).
Abbreviation loop := (try_variants datadog_get).
Abbreviation try := (attempt datadog_get).







Lemma candidates_nested kvs inner ms :
  lookup "data" kvs = Some (JDict inner) ->
  lookup "monitors" inner = Some ms ->
  candidates_of (JDict kvs) = ms.
Proof.
  intros Hd Hm. unfold candidates_of. simpl. rewrite Hd. simpl.
  now rewrite Hm.
Qed.

Lemma candidates_flat kvs ms :
  nested_absent kvs = true -> lookup "monitors" kvs = Some ms ->
  candidates_of (JDict kvs) = ms.
Proof.
  intros Hn Hm. unfold candidates_of, nested_absent in *. simpl.
  rewrite Hm. destruct (lookup "data" kvs) as [d|]; [|reflexivity].
  destruct d; try reflexivity. simpl.
  destruct (lookup "monitors" kvs0); [discriminate|reflexivity].
Qed.

Lemma candidates_shapeless doc :
  shapeless doc = true -> candidates_of doc = JList [].
Proof.
  destruct doc as [| | | | |kvs]; try reflexivity.
  unfold shapeless, candidates_of, nested_absent. simpl.
  intros [Hn Hm]%andb_true_iff.
  destruct (lookup "monitors" kvs); [discriminate|].
  destruct (lookup "data" kvs) as [d|]; [|reflexivity].
  destruct d; try reflexivity. simpl.
  destruct (lookup "monitors" kvs0); [discriminate|reflexivity].
Qed.

(** The two shapes of a search response are read alike, the list under
    [data.monitors] going before one under [monitors]; a response that has
    neither shape, or is no object at all, is an empty result and no
    error. *)
Theorem response_shapes (q : string) :
  (forall kvs inner ms,
     datadog_get q = Return (JDict kvs) ->
     lookup "data" kvs = Some (JDict inner) ->
     lookup "monitors" inner = Some ms ->
     try q = summaries ms) /\
  (forall kvs ms,
     datadog_get q = Return (JDict kvs) ->
     nested_absent kvs = true -> lookup "monitors" kvs = Some ms ->
     try q = summaries ms) /\
  (forall doc,
     datadog_get q = Return doc -> shapeless doc = true ->
     try q = Return []).
Proof.
  unfold attempt, summaries. repeat split.
  - intros kvs inner ms -> Hd Hm. cbn [bind].
    now rewrite (candidates_nested _ _ _ Hd Hm).
  - intros kvs ms -> Hn Hm. cbn [bind].
    now rewrite (candidates_flat _ _ Hn Hm).
  - intros doc -> Hs. cbn [bind]. now rewrite (candidates_shapeless _ Hs).
Qed.

Lemma select_monitors_not_dicts (ms : list json) :
  forallb is_dict ms = false -> select_monitors ms = Raise AttributeError.
Proof.
  induction ms as [|m ms IH]; [discriminate|]. simpl.
  destruct m; try reflexivity. simpl. intros H.
  destruct (lookup "id" kvs) as [i|]; simpl.
  - destruct i; simpl; try (now apply IH);
      destruct (lookup "name" kvs); simpl; now rewrite (IH H).
  - now apply IH.
Qed.

Lemma loop_aborts team_input handle pre q post e last_err :
  Forall (passed_over datadog_get) pre ->
  try q = Raise e -> (forall h, e <> HTTPError h) ->
  loop team_input handle (pre ++ q :: post) last_err = (pre ++ [q], Raise e).
Proof.
  intros Hpre Hq He. revert last_err.
  induction Hpre as [|p pre [[e' Hp]|Hp] _ IH]; intros last_err; cbn [app].
  - simpl. rewrite Hq. destruct e; try reflexivity. now contradiction (He e).
  - rewrite (loop_rejected _ _ _ _ _ _ _ Hp), IH. reflexivity.
  - rewrite (loop_empty _ _ _ _ _ _ Hp), IH. reflexivity.
Qed.

(** A candidate that is no object, or a candidate list that cannot be
    iterated, stops the search: the error leaves the engine and the
    remaining variants are not tried. *)
Theorem malformed_candidates_abort team_input handle k data :
  resolve team_input = Return handle -> (k < 4)%nat ->
  (forall i, (i < k)%nat ->
     passed_over datadog_get (nth i (variants handle) "")) ->
  datadog_get (nth k (variants handle) "") = Return data ->
  (forall candidates,
     iter (or_else (candidates_of data) (JList [])) = Return candidates ->
     forallb is_dict candidates = false ->
     search team_input =
     (firstn (S k) (variants handle), Raise AttributeError)) /\
  (iter (or_else (candidates_of data) (JList [])) = Raise TypeError ->
   search team_input = (firstn (S k) (variants handle), Raise TypeError)).
Proof.
  intros Hres Hk Hpre Hq.
  assert (Hlen : (k < length (variants handle))%nat)
    by (rewrite variants_length; exact Hk).
  assert (Hall : Forall (passed_over datadog_get) (firstn k (variants handle))).
  { apply Forall_firstn with (d := ""%string); [lia|exact Hpre]. }
  assert (Hrun : forall e,
            try (nth k (variants handle) "") = Raise e ->
            (forall h, e <> HTTPError h) ->
            search team_input = (firstn (S k) (variants handle), Raise e)).
  { intros e He Hne. rewrite (search_resolved _ _ _ _ Hres).
    rewrite (firstn_succ _ k "" Hlen).
    rewrite (nth_decompose (variants handle) k "" Hlen) at 1.
    now apply loop_aborts. }
  split.
  - intros candidates Hi Hd. apply Hrun; [|discriminate].
    unfold attempt. rewrite Hq. cbn [bind]. rewrite Hi. cbn [bind].
    now apply select_monitors_not_dicts.
  - intros Hi. apply Hrun; [|discriminate].
    unfold attempt. rewrite Hq. cbn [bind]. now rewrite Hi.
Qed.

End EngineBehaviour.

(** ** Further properties: the fetcher *)

Section FetcherBehaviour.
Import Py datadog_synthetics_export Spec SyntheticsSpec Behaviour.

Local Open Scope list_scope.

Variable tests_api : Z -> Z -> result response.

Abbreviation fetch := (get_synthetic_tests tests_api).

(** Full pages, then a page on which the turn of the loop raises. *)
Lemma fetch_loop_fails (full : list (list json)) :
  forall (start : nat) (all_tests : list json) (fuel : nat) (e : exn),
  Forall (fun p => (page_size <= Z.of_nat (length p))%Z) full ->
  (forall i, (i < length full)%nat ->
     tests_api (Z.of_nat (start + i)) page_size =
     ok (tests_doc (nth i full []))) ->
  (forall acc,
     fetch_page tests_api (Z.of_nat (start + length full)) acc = Raise e) ->
  (length full < fuel)%nat ->
  fetch_loop tests_api fuel (Z.of_nat start) all_tests =
  Some (map (fun i => (Z.of_nat i, page_size)) (seq start (S (length full))),
        Raise e).
Proof.
  induction full as [|p full IH]; intros start all_tests fuel e Hfull Hapi
    Hfail Hfuel; (destruct fuel as [|fuel]; [simpl in Hfuel; lia|]).
  - simpl in Hfail. rewrite Nat.add_0_r in Hfail.
    simpl. now rewrite Hfail.
  - inversion Hfull as [|? ? Hp Hfull']; subst.
    pose proof (Hapi 0%nat ltac:(simpl; lia)) as H0.
    rewrite Nat.add_0_r in H0. simpl in H0.
    cbn [fetch_loop]. rewrite (fetch_page_ok _ _ _ _ H0).
    destruct p as [|x p]; [simpl in Hp; unfold page_size in Hp; lia|].
    destruct (Z.ltb_spec (Z.of_nat (length (x :: p))) page_size); [lia|].
    replace (Z.of_nat start + 1)%Z with (Z.of_nat (S start)) by lia.
    rewrite (IH (S start) (all_tests ++ x :: p) fuel e Hfull').
    + reflexivity.
    + intros i Hi. specialize (Hapi (S i)).
      replace (S start + i)%nat with (start + S i)%nat by lia.
      apply Hapi. simpl. lia.
    + intros acc. specialize (Hfail acc).
      replace (S start + length full)%nat
        with (start + length (p :: full))%nat by (simpl; lia).
      exact Hfail.
    + simpl in Hfuel. lia.
Qed.

(** When a page cannot be fetched, or comes back with a status from 400
    to 599, the fetch raises that failure and returns none of the items of
    the pages before it; no further page is requested. *)
Theorem fetch_failure_discards (full : list (list json)) (fuel : nat) :
  Forall (fun p => (100 <= Z.of_nat (length p))%Z) full ->
  (forall i, (i < length full)%nat ->
     tests_api (Z.of_nat i) 100%Z = ok (tests_doc (nth i full []))) ->
  (length full < fuel)%nat ->
  (forall e, tests_api (Z.of_nat (length full)) 100%Z = Raise e ->
     fetch fuel = Some (requests (S (length full)), Raise e)) /\
  (forall r, tests_api (Z.of_nat (length full)) 100%Z = Return r ->
     (400 <= status r < 600)%Z ->
     fetch fuel =
     Some (requests (S (length full)),
           Raise (HTTPError (mkHTTPError (status r) (error_text r))))).
Proof.
  intros Hfull Hapi Hfuel. unfold get_synthetic_tests. split.
  - intros e He.
    apply (fetch_loop_fails full 0 [] fuel e Hfull Hapi); [|exact Hfuel].
    intros acc. unfold fetch_page. simpl Nat.add.
    change page_size with 100%Z. now rewrite He.
  - intros r Hr [Hlo Hhi].
    apply (fetch_loop_fails full 0 [] fuel _ Hfull Hapi); [|exact Hfuel].
    intros acc. unfold fetch_page. simpl Nat.add.
    change page_size with 100%Z. rewrite Hr. cbn [bind].
    unfold raise_for_status.
    apply Z.leb_le in Hlo. apply Z.ltb_lt in Hhi. now rewrite Hlo, Hhi.
Qed.

Lemma fetch_loop_endless :
  (forall i : nat, exists p,
     tests_api (Z.of_nat i) page_size = ok (tests_doc p) /\
     (page_size <= Z.of_nat (length p))%Z) ->
  forall fuel start all_tests,
    fetch_loop tests_api fuel (Z.of_nat start) all_tests = None.
Proof.
  intros Hfull. induction fuel as [|fuel IH]; intros start all_tests;
    [reflexivity|].
  destruct (Hfull start) as (p & Hp & Hlen).
  cbn [fetch_loop]. rewrite (fetch_page_ok _ _ _ _ Hp).
  destruct p as [|x p]; [simpl in Hlen; unfold page_size in Hlen; lia|].
  destruct (Z.ltb_spec (Z.of_nat (length (x :: p))) page_size); [lia|].
  replace (Z.of_nat start + 1)%Z with (Z.of_nat (S start)) by lia.
  now rewrite IH.
Qed.

(** There is no bound on the pages: against a listing of which every page
    holds at least 100 items the loop never ends, however many turns it is
    given. *)
Theorem endless_listing :
  (forall i : nat, exists p,
     tests_api (Z.of_nat i) 100%Z = ok (tests_doc p) /\
     (100 <= Z.of_nat (length p))%Z) ->
  forall fuel, fetch fuel = None.
Proof.
  intros Hfull fuel. unfold get_synthetic_tests.
  exact (fetch_loop_endless Hfull fuel 0%nat []).
Qed.

(** A first page whose document is null or empty, or has no [tests] or
    null or empty ones, ends the fetch after that one request with no
    item. *)
Theorem empty_listing (r : response) (doc : json) (fuel : nat) :
  tests_api 0%Z 100%Z = Return r ->
  raise_for_status r = Return tt ->
  body r = Return doc ->
  truthy doc = false \/
  (exists kvs, doc = JDict kvs /\
               truthy (field_or kvs "tests" (JList [])) = false) ->
  (0 < fuel)%nat ->
  fetch fuel = Some ([(0, 100)%Z], Return []).
Proof.
  intros Ha Hs Hb Hdoc Hfuel. destruct fuel as [|fuel]; [lia|].
  unfold get_synthetic_tests. cbn [fetch_loop].
  assert (Hpage : fetch_page tests_api 0 [] = Return (inl [])).
  { unfold fetch_page. change page_size with 100%Z. rewrite Ha. cbn [bind].
    rewrite Hs. cbn [bind]. rewrite Hb. cbn [bind].
    destruct Hdoc as [Hd|(kvs & -> & Ht)].
    - unfold or_else. rewrite Hd. reflexivity.
    - unfold or_else. destruct (truthy (JDict kvs)) eqn:E.
      + rewrite get_dict. cbn [bind]. now rewrite Ht.
      + reflexivity. }
  now rewrite Hpage.
Qed.

End FetcherBehaviour.

(** ** Further properties: the normalizer *)

Section NormalizerBehaviour.
Import Py datadog_synthetics_export Spec SyntheticsSpec Behaviour.

Local Open Scope list_scope.

Variable int_of_str : string -> option Z.

Abbreviation normalize := (process_test int_of_str).
Abbreviation normalize_all := (process_synthetic_tests int_of_str).

Lemma mapM_returns {A B : Type} (f : A -> result B) (l : list A)
    (out : list B) :
  mapM f l = Return out <-> Forall2 (fun a b => f a = Return b) l out.
Proof.
  revert out. induction l as [|a l IH]; intros out; simpl.
  - split; [intros [= <-]; constructor|]. inversion 1. reflexivity.
  - split.
    + destruct (f a) as [b|] eqn:Ea; simpl; [|discriminate].
      destruct (mapM f l) as [bs|]; simpl; [|discriminate].
      intros [= <-]. constructor; [exact Ea|]. now apply IH.
    + inversion 1 as [|? b ? bs Hb Hbs]; subst. rewrite Hb. simpl.
      apply IH in Hbs. now rewrite Hbs.
Qed.

Lemma mapM_raises {A B : Type} (f : A -> result B) (before : list A)
    (a : A) (after : list A) (e : exn) :
  Forall (fun x => exists b, f x = Return b) before ->
  f a = Raise e -> mapM f (before ++ a :: after) = Raise e.
Proof.
  intros Hb Ha. induction Hb as [|x before [b Hx] _ IH]; simpl.
  - now rewrite Ha.
  - now rewrite Hx, IH.
Qed.

(** The table has one row per record, in the order of the records, each
    the row of its record; and when a record cannot be normalized the error
    of the first such record is raised and no table is made. *)
Theorem rows_follow_records :
  (forall tests rows,
     process_synthetic_tests int_of_str tests = Return rows <->
     Forall2 (fun test r => process_test int_of_str test = Return r)
       tests rows) /\
  (forall before test after e,
     Forall (fun t => exists r, process_test int_of_str t = Return r)
       before ->
     process_test int_of_str test = Raise e ->
     process_synthetic_tests int_of_str (before ++ test :: after) =
     Raise e).
Proof.
  split.
  - intros tests rows. apply mapM_returns.
  - intros before test after e. apply mapM_raises.
Qed.

Lemma lower_type (s : string) :
  lower_value (or_else (JStr s) (JStr "")) = Return (lower s).
Proof. destruct s; reflexivity. Qed.

(** The letter case of [type] does not matter: two records that agree on
    every other field and whose types differ only in case give the same
    row, or fail alike. *)
Theorem type_case_ignored kvs1 kvs2 s1 s2 :
  same_but_type kvs1 kvs2 ->
  lookup "type" kvs1 = Some (JStr s1) ->
  lookup "type" kvs2 = Some (JStr s2) ->
  lower s1 = lower s2 ->
  normalize (JDict kvs1) = normalize (JDict kvs2).
Proof.
  intros Hsame H1 H2 Hl.
  assert (Hget : forall k d, k <> "type"%string ->
            get (JDict kvs1) k d = get (JDict kvs2) k d).
  { intros k d Hk. simpl. now rewrite (Hsame k Hk). }
  unfold process_test.
  assert (Ht1 : get (JDict kvs1) "type" JNull = Return (JStr s1))
    by (simpl; now rewrite H1).
  assert (Ht2 : get (JDict kvs2) "type" JNull = Return (JStr s2))
    by (simpl; now rewrite H2).
  rewrite Ht1, Ht2. cbn [bind]. rewrite !lower_type, Hl. cbn [bind].
  unfold extract_schedule, extract_subtype, get_status, extract_frequency,
    extract_locations, extract_monitor_id, extract_device_ids, extract_tags.
  rewrite !(Hget "options"), !(Hget "public_id"), !(Hget "name"),
    !(Hget "subtype"), !(Hget "steps"), !(Hget "status"),
    !(Hget "locations"), !(Hget "monitor_id"), !(Hget "tags")
    by discriminate.
  reflexivity.
Qed.

Lemma day_name_outside (n : Z) :
  (n < 1 \/ 7 < n)%Z -> day_name n = str_int n.
Proof.
  intros H. unfold day_name, DAY_MAP. cbn [day_lookup].
  repeat match goal with
         | |- context [(n =? ?k)%Z] =>
             destruct (Z.eqb_spec n k); [lia|]
         end.
  reflexivity.
Qed.

Lemma windows_of_rendered (timeframes : list json) :
  forallb timeframe_ok timeframes = true ->
  windows_of timeframes =
  Return (map render (filter complete timeframes)).
Proof.
  induction timeframes as [|tf rest IH]; [reflexivity|]. intros H.
  apply andb_true_iff in H as [Htf Hrest].
  destruct tf as [| | | | |kvs]; try discriminate.
  cbn [windows_of]. rewrite !get_dict. cbn [bind]. rewrite (IH Hrest).
  cbn [filter].
  change (complete (JDict kvs))
    with (truthy (field_or kvs "from" JNull) &&
          truthy (field_or kvs "to" JNull)).
  assert (Hd : field_or kvs "day" JNull = JNull \/
               exists n, field_or kvs "day" JNull = JNum n).
  { unfold timeframe_ok in Htf. unfold field_or.
    destruct (lookup "day" kvs) as [[]|]; try discriminate; eauto. }
  assert (Hr : render (JDict kvs) =
               match field_or kvs "day" JNull with
               | JNum n =>
                   (day_name n ++ " " ++ str (field_or kvs "from" JNull) ++
                    "-" ++ str (field_or kvs "to" JNull))%string
               | _ =>
                   (str (field_or kvs "from" JNull) ++ "-" ++
                    str (field_or kvs "to" JNull))%string
               end) by reflexivity.
  destruct Hd as [Hd|[n Hd]]; rewrite Hd in *; cbn [day_label bind];
    destruct (truthy (field_or kvs "from" JNull) &&
              truthy (field_or kvs "to" JNull));
    cbn [map app]; rewrite ?Hr; reflexivity.
Qed.

(** The schedule of a record lists, in their order and joined by ["; "],
    the timeframes that have both a start and an end, each as the day's
    name (or, outside 1 to 7, its number) followed by [start-end], or as
    [start-end] alone when it has no day; with no such timeframe it is
    ["N/A"]. *)
Theorem schedule_windows_rendered kvs okvs skvs timeframes :
  lookup "options" kvs = Some (JDict okvs) ->
  lookup "scheduling" okvs = Some (JDict skvs) ->
  lookup "timeframes" skvs = Some (JList timeframes) ->
  forallb timeframe_ok timeframes = true ->
  extract_schedule (JDict kvs) =
    Return (mkSchedule
              (or_else (field_or skvs "timezone" JNull) (JStr "N/A"))
              (match map render (filter complete timeframes) with
               | [] => "N/A"%string
               | windows => join "; " windows
               end)) /\
  (forall n, (n < 1 \/ 7 < n)%Z -> day_name n = str_int n).
Proof.
  intros Ho Hs Ht Hok. split; [|exact day_name_outside].
  assert (E1 : get (JDict kvs) "options" (JDict []) = Return (JDict okvs))
    by (simpl; now rewrite Ho).
  assert (E2 : get (JDict okvs) "scheduling" (JDict []) =
               Return (JDict skvs)) by (simpl; now rewrite Hs).
  assert (E3 : get (JDict skvs) "timeframes" JNull =
               Return (JList timeframes)) by (simpl; now rewrite Ht).
  assert (E4 : or_else (JList timeframes) (JList []) = JList timeframes)
    by (destruct timeframes; reflexivity).
  unfold extract_schedule. rewrite E1. cbn [bind]. rewrite E2. cbn [bind].
  rewrite (lookup_some_truthy _ _ _ Ht), E3, get_dict. cbn [bind].
  rewrite E4. cbn [iter bind]. rewrite (windows_of_rendered _ Hok).
  cbn [bind]. destruct (map render (filter complete timeframes)); reflexivity.
Qed.

End NormalizerBehaviour.

(** ** Further properties: the export run *)

Section ExportRun.
Import Py datadog_synthetics_export Spec SyntheticsSpec Behaviour.

Local Open Scope list_scope.

Variable int_of_str : string -> option Z.
Variable tests_api : Z -> Z -> result response.
Variable to_csv : list row -> string -> result unit.
Variable to_excel : list row -> string -> result unit.

Abbreviation fetch := (get_synthetic_tests tests_api).
Abbreviation normalize_all := (process_synthetic_tests int_of_str).
Abbreviation run := (main int_of_str tests_api to_csv to_excel).

(** What [main] does once the table is made. *)
Lemma run_after_table fuel output filename sent tests df :
  fetch fuel = Some (sent, Return tests) ->
  normalize_all tests = Return df ->
  run fuel output filename =
  match output with
  | csv =>
      Some (sent, [csv_export (base_name filename ++ ".csv") df],
            to_csv df (base_name filename ++ ".csv")%string)
  | excel =>
      Some (sent, [excel_export (base_name filename ++ ".xlsx") df],
            to_excel df (base_name filename ++ ".xlsx")%string)
  | both =>
      match to_csv df (base_name filename ++ ".csv")%string with
      | Raise e =>
          Some (sent, [csv_export (base_name filename ++ ".csv") df], Raise e)
      | Return _ =>
          Some (sent,
                [csv_export (base_name filename ++ ".csv") df;
                 excel_export (base_name filename ++ ".xlsx") df],
                to_excel df (base_name filename ++ ".xlsx")%string)
      end
  end.
Proof.
  intros Hf Hn. unfold main. rewrite Hf, Hn.
  unfold export_to_csv, export_to_excel, base_name.
  destruct output; cbn [app].
  - destruct (to_csv df _) as [u|e]; [destruct u|]; reflexivity.
  - reflexivity.
  - destruct (to_csv df _) as [u|e]; [destruct u|]; reflexivity.
Qed.

(** A listing of well-formed records, served in full pages and a last
    short one, is exported whole when the writers chosen by [--output] do
    not raise: the run asks for each page once, makes one row per record
    and calls the writers with all the rows, the CSV one first, under the
    given name or [synthetic_tests]. *)
Theorem export_run full last fuel output filename :
  Forall (fun p => (100 <= Z.of_nat (length p))%Z) full ->
  (Z.of_nat (length last) < 100)%Z ->
  (forall i, (i <= length full)%nat ->
     tests_api (Z.of_nat i) 100%Z =
     ok (tests_doc (nth i (full ++ [last]) []))) ->
  forallb wf_test (concat (full ++ [last])) = true ->
  (length full < fuel)%nat ->
  exists df,
    process_synthetic_tests int_of_str (concat (full ++ [last])) =
      Return df /\
    length df = length (concat (full ++ [last])) /\
    ((output = excel \/
      to_csv df (base_name filename ++ ".csv")%string = Return tt) ->
     (output = csv \/
      to_excel df (base_name filename ++ ".xlsx")%string = Return tt) ->
     main int_of_str tests_api to_csv to_excel fuel output filename =
     Some (requests (S (length full)),
           files output (base_name filename) df, Return tt)).
Proof.
  intros Hfull Hlast Hapi Hwf Hfuel.
  destruct (process_synthetic_tests_wf int_of_str _ Hwf) as (df & Hdf & Hlen).
  exists df. split; [exact Hdf|]. split; [exact Hlen|].
  pose proof (fetch_loop_pages tests_api full last 0 [] fuel Hfull Hlast Hapi
                Hfuel) as Hfetch.
  change (Z.of_nat 0) with 0%Z in Hfetch. cbn [app] in Hfetch.
  intros Hcsv Hexcel.
  rewrite (run_after_table fuel output filename _ _ _ Hfetch Hdf).
  unfold files. destruct output.
  - destruct Hcsv as [Hc|Hc]; [discriminate|]. now rewrite Hc.
  - destruct Hexcel as [Hx|Hx]; [discriminate|]. now rewrite Hx.
  - destruct Hcsv as [Hc|Hc]; [discriminate|].
    destruct Hexcel as [Hx|Hx]; [discriminate|]. now rewrite Hc, Hx.
Qed.

(** How a run fails. A page that cannot be fetched, or a record that
    cannot be normalized, ends the run before any export call; with
    [--output both] a CSV writer that raises ends it before the Excel
    writer is called, and an Excel writer that raises ends it after the CSV
    file has been written. *)
Theorem failing_run_exports fuel output filename sent :
  (forall e, get_synthetic_tests tests_api fuel = Some (sent, Raise e) ->
     main int_of_str tests_api to_csv to_excel fuel output filename =
     Some (sent, [], Raise e)) /\
  (forall tests e,
     get_synthetic_tests tests_api fuel = Some (sent, Return tests) ->
     process_synthetic_tests int_of_str tests = Raise e ->
     main int_of_str tests_api to_csv to_excel fuel output filename =
     Some (sent, [], Raise e)) /\
  (forall tests df e,
     get_synthetic_tests tests_api fuel = Some (sent, Return tests) ->
     process_synthetic_tests int_of_str tests = Return df ->
     to_csv df (base_name filename ++ ".csv")%string = Raise e ->
     main int_of_str tests_api to_csv to_excel fuel both filename =
     Some (sent, [csv_export (base_name filename ++ ".csv") df], Raise e)) /\
  (forall tests df e,
     get_synthetic_tests tests_api fuel = Some (sent, Return tests) ->
     process_synthetic_tests int_of_str tests = Return df ->
     to_csv df (base_name filename ++ ".csv")%string = Return tt ->
     to_excel df (base_name filename ++ ".xlsx")%string = Raise e ->
     main int_of_str tests_api to_csv to_excel fuel both filename =
     Some (sent,
           [csv_export (base_name filename ++ ".csv") df;
            excel_export (base_name filename ++ ".xlsx") df],
           Raise e)).
Proof.
  repeat split.
  - intros e Hf. unfold main. now rewrite Hf.
  - intros tests e Hf Hn. unfold main. now rewrite Hf, Hn.
  - intros tests df e Hf Hn Hcsv.
    rewrite (run_after_table fuel both filename _ _ _ Hf Hn). now rewrite Hcsv.
  - intros tests df e Hf Hn Hcsv Hexcel.
    rewrite (run_after_table fuel both filename _ _ _ Hf Hn).
    now rewrite Hcsv, Hexcel.
Qed.

End ExportRun.

(** ** The further properties on sample input *)

Section BehaviourSamples.
Import Py GE_Alerts_extract datadog_synthetics_export Spec SyntheticsSpec
  Behaviour.

Local Open Scope list_scope.

(** The handle resolved for [Web] is a string. *)
Lemma resolved_handle_is_text_witness : exists s, JStr "web" = JStr s.
Proof.
  exact (resolved_handle_is_text sample_teams "Web" (JStr "web") eq_refl).
Defined.

(** [web-core] looks like a handle and is returned as it is. *)
Lemma synthesized_canonical_witness : synthesized "web-core" = "web-core"%string.
Proof.
  apply (proj2 synthesized_canonical "web-core"%string).
  - reflexivity.
  - intros H. simpl in H.
    repeat (destruct H as [H|H]; [discriminate H|]). exact H.
  - reflexivity.
Defined.

(** [WEB] and [web] resolve alike. *)
Lemma resolve_ignores_case_witness :
  _extract_team_handle sample_teams "WEB" =
  _extract_team_handle sample_teams "web".
Proof. apply resolve_ignores_case; reflexivity. Defined.

(** A 403 from the lookup: the search fails with it and sends nothing. *)
Lemma lookup_failure_stops_search_witness :
  find_monitors_for_team (teams_response forbidden) sample_search "Web" =
  ([], Raise (http 403 "403 Client Error: Forbidden")).
Proof.
  apply (proj1 (proj2 (lookup_failure_stops_search
                         (teams_response forbidden) sample_search "Web"))
           forbidden eq_refl).
  simpl. lia.
Defined.

(** A null [data]: the handle is made from the keyword. *)
Lemma no_data_synthesized_witness :
  _extract_team_handle (teams_response null_data) "Web Team" =
  Return (JStr "web-team").
Proof.
  apply (no_data_synthesized (teams_response null_data) "Web Team" null_data
           [("data", JNull)]); reflexivity.
Defined.

(** Nothing matches [ops], and the first record has no handle. *)
Lemma unmatched_first_without_handle_witness :
  _extract_team_handle (teams_fixed nameless_first) "ops" =
  Return (JStr "ops").
Proof.
  apply (unmatched_first_without_handle (teams_fixed nameless_first) "ops"
           [("attributes", JDict [("name", JStr "Platform")])]
           [("name", JStr "Platform")] "Platform" [team "Web" "web-core"]
           [("Web", "web-core")%string]);
    try reflexivity; discriminate.
Defined.

(** Nothing matches [ops], and the first record has null attributes. *)
Lemma unmatched_first_null_attributes_witness :
  _extract_team_handle (teams_fixed [JDict [("attributes", JNull)]]) "ops" =
  Raise AttributeError.
Proof.
  apply (unmatched_first_null_attributes
           (teams_fixed [JDict [("attributes", JNull)]]) "ops"
           [("attributes", JNull)] [] []);
    try reflexivity; discriminate.
Defined.



(** With both shapes present the nested list is the one read. *)
Lemma response_shapes_witness :
  attempt search_nested "team:web" =
  Return [mkMonitor (JNum 7) (JStr "cpu")].
Proof.
  exact (proj1 (response_shapes search_nested "team:web") _ _ _
           eq_refl eq_refl eq_refl).
Defined.

(** A number among the monitors of the first variant: the search stops. *)
Lemma malformed_candidates_abort_witness :
  find_monitors_for_team sample_teams search_malformed "Web" =
  ([ "team:web"%string ], Raise AttributeError).
Proof.
  apply (proj1 (malformed_candidates_abort sample_teams search_malformed
                  "Web" (JStr "web") 0 (monitors_doc [JNum 5])
                  eq_refl ltac:(lia) ltac:(intros i Hi; lia) eq_refl)
           [JNum 5]); reflexivity.
Defined.

(** A 503 on the second page: two requests, and the 100 items of the first
    page are not returned. *)
Lemma fetch_failure_discards_witness :
  get_synthetic_tests listing_unavailable 2 =
  Some ([(0, 100); (1, 100)]%Z,
        Raise (http 503 "503 Server Error: Service Unavailable")).
Proof.
  apply (proj2 (fetch_failure_discards listing_unavailable [full_page] 2
                  ltac:(repeat constructor; simpl; lia)
                  ltac:(intros i Hi; simpl in Hi;
                        assert (i = 0%nat) as -> by lia; reflexivity)
                  ltac:(simpl; lia))
           unavailable eq_refl).
  simpl. lia.
Defined.

(** Five turns against the endless listing: the loop has not ended. *)
Lemma endless_listing_witness : get_synthetic_tests listing_endless 5 = None.
Proof.
  apply endless_listing. intros i. exists full_page. split; [reflexivity|].
  simpl. lia.
Defined.

(** A listing with no page: one request, no item. *)
Lemma empty_listing_witness :
  get_synthetic_tests (serve []) 1 = Some ([(0, 100)%Z], Return []).
Proof.
  apply (empty_listing (serve []) (mkResponse 200 "" (Return (tests_doc [])))
           (tests_doc []) 1); try reflexivity.
  - right. exists [("tests", JList [])]. split; reflexivity.
  - lia.
Defined.

(** The second of three records has numbers for tags: no table. *)
Lemma rows_follow_records_witness :
  process_synthetic_tests decimal
    [JDict []; JDict [("tags", JList [JNum 1])]; JDict []] = Raise TypeError.
Proof.
  apply (proj2 (rows_follow_records decimal) [JDict []]
           (JDict [("tags", JList [JNum 1])]) [JDict []] TypeError).
  - repeat constructor. eexists. reflexivity.
  - reflexivity.
Defined.

(** [API] and [api] give the same row. *)
Lemma type_case_ignored_witness :
  process_test decimal
    (JDict [("type", JStr "API"); ("subtype", JStr "http")]) =
  process_test decimal
    (JDict [("type", JStr "api"); ("subtype", JStr "http")]).
Proof.
  apply (type_case_ignored decimal _ _ "API" "api"); try reflexivity.
  intros k Hk. simpl. apply String.eqb_neq in Hk. now rewrite Hk.
Defined.

(** Three timeframes, of which the second has no end. *)
Lemma schedule_windows_rendered_witness :
  extract_schedule (JDict scheduled) =
  Return (mkSchedule (JStr "Pacific/Auckland")
            "Mon 06:00-20:00; 08:00-09:00").
Proof.
  exact (proj1 (schedule_windows_rendered scheduled _ _ _
                  eq_refl eq_refl eq_refl eq_refl)).
Defined.

(** Two records in one short page, written to both files. *)
Lemma export_run_witness :
  main decimal (serve [two_records]) writes writes 1 both None =
  Some ([(0, 100)%Z],
        [ csv_export "synthetic_tests.csv" [default_row; api_row];
          excel_export "synthetic_tests.xlsx" [default_row; api_row] ],
        Return tt).
Proof.
  destruct (export_run decimal (serve [two_records]) writes writes []
              two_records 1 both None)
    as (df & Hdf & _ & Hrun).
  - constructor.
  - simpl. lia.
  - intros i Hi. simpl in Hi. assert (i = 0%nat) as -> by lia. reflexivity.
  - reflexivity.
  - simpl. lia.
  - injection Hdf as <-. apply Hrun; right; reflexivity.
Defined.

(** The Excel writer refuses the table: the run fails with the CSV file
    written. *)
Lemma failing_run_exports_witness :
  main decimal (serve [two_records]) writes refuses 1 both None =
  Some ([(0, 100)%Z],
        [ csv_export "synthetic_tests.csv" [default_row; api_row];
          excel_export "synthetic_tests.xlsx" [default_row; api_row] ],
        Raise ValueError).
Proof.
  apply (proj2 (proj2 (proj2 (failing_run_exports decimal
                                (serve [two_records]) writes refuses 1 both
                                None [(0, 100)%Z])))
           two_records [default_row; api_row] ValueError);
    reflexivity.
Defined.

End BehaviourSamples.
